(** * Travel-time client for the OSRM table service

    A shallow embedding of [travel_time_osrm_ch.py] (class [TravelTimeOSRMCH])
    and the properties of its three queries: MANY-TO-ONE, ONE-TO-MANY and
    ONE-TO-ONE.

    Python values are embedded as follows.
    - Numbers are Python [int]s (unbounded, [Z]) or [float]s (IEEE 754
      binary64, [spec_float] with [prec = 53] and [emax = 1024]).  Order
      comparisons between them are exact, as in CPython; true division
      rounds to nearest-even.
    - The object returned by [json.loads] is a [json] value; every Python
      operation applied to it raises the exception CPython raises when the
      value has the wrong shape.
    - [requests.get] is the only effect: a program is a tree whose nodes
      are GET requests, interpreted against a server. *)

From Stdlib Require Import ZArith QArith Qpower Bool List String Ascii Lia.
From Stdlib Require Import Permutation.
From Stdlib Require Import Floats.SpecFloat.
From Stdlib Require Import Decimal DecimalString DecimalZ.
Import ListNotations.

Open Scope string_scope.
Open Scope Z_scope.

(* ================================================================= *)
(** ** Exceptions and fallible computations *)

Inductive pyerr : Type :=
| TypeError
| IndexError
| KeyError
| ZeroDivisionError
| OverflowError
| JSONDecodeError.

Inductive result (A : Type) : Type :=
| Ok (a : A)
| Err (e : pyerr).

Arguments Ok {A} a.
Arguments Err {A} e.

Definition rbind {A B : Type} (r : result A) (k : A -> result B) : result B :=
  match r with
  | Ok a => k a
  | Err e => Err e
  end.

Declare Scope result_scope.
Delimit Scope result_scope with result.
Notation "x <- r ;; k" := (rbind r (fun x => k))
  (at level 61, r at next level, right associativity) : result_scope.
Notation "' p <- r ;; k" := (rbind r (fun x => let p := x in k))
  (at level 61, p pattern, r at next level, right associativity) : result_scope.

(* ================================================================= *)
(** ** Numbers *)

Module PyNum.

(** A Python number as [json.loads] produces it. *)
Inductive pynum : Type :=
| PyInt (z : Z)
| PyFloat (f : spec_float).

(** Extended rationals: the exact value of a number. *)
Inductive xreal : Type :=
| XNaN
| XNegInf
| XFin (q : Q)
| XPosInf.

Definition Qlt_bool (p q : Q) : bool :=
  match (p ?= q)%Q with
  | Lt => true
  | _ => false
  end.

(** [a < b] on exact values; false as soon as a NaN is involved. *)
Definition xlt (a b : xreal) : bool :=
  match a, b with
  | XNaN, _ | _, XNaN => false
  | XNegInf, XNegInf => false
  | XNegInf, _ => true
  | XFin _, XNegInf => false
  | XFin p, XFin q => Qlt_bool p q
  | XFin _, XPosInf => true
  | XPosInf, _ => false
  end.

Definition SF2X (f : spec_float) : xreal :=
  match f with
  | S754_zero _ => XFin 0
  | S754_infinity s => if s then XNegInf else XPosInf
  | S754_nan => XNaN
  | S754_finite s m e =>
      let q := (inject_Z (Zpos m) * (2 # 1) ^ e)%Q in
      XFin (if s then Qopp q else q)
  end.

Definition value (n : pynum) : xreal :=
  match n with
  | PyInt z => XFin (inject_Z z)
  | PyFloat f => SF2X f
  end.

(** Python's [a < b] on numbers. *)
Definition py_lt (a b : pynum) : bool := xlt (value a) (value b).

Definition binary64_div : spec_float -> spec_float -> spec_float :=
  SFdiv 53 1024.

(** The integer [z] as an exact (not normalised) binary float. *)
Definition SF_of_Z (z : Z) : spec_float :=
  match z with
  | Z0 => S754_zero false
  | Zpos p => S754_finite false p 0
  | Zneg p => S754_finite true p 0
  end.

(** [float(z)]: nearest binary64, [OverflowError] when out of range. *)
Definition float_of_int (z : Z) : result spec_float :=
  match binary_normalize 53 1024 z 0 false with
  | S754_infinity _ => Err OverflowError
  | f => Ok f
  end.

Definition to_float (n : pynum) : result spec_float :=
  match n with
  | PyInt z => float_of_int z
  | PyFloat f => Ok f
  end.

Definition is_zero (f : spec_float) : bool :=
  match f with
  | S754_zero _ => true
  | _ => false
  end.

(** Python's [a / b].  Two ints give the correctly rounded quotient;
    otherwise both operands are converted to float first. *)
Definition py_truediv (a b : pynum) : result spec_float :=
  match a, b with
  | PyInt x, PyInt y =>
      if (y =? 0)%Z then Err ZeroDivisionError
      else match binary64_div (SF_of_Z x) (SF_of_Z y) with
           | S754_infinity _ => Err OverflowError
           | f => Ok f
           end
  | _, _ =>
      (x <- to_float a ;;
       y <- to_float b ;;
       if is_zero y then Err ZeroDivisionError
       else Ok (binary64_div x y))%result
  end.

(** [str(z)] for an int: decimal digits, with a leading minus sign. *)
Definition str_int (z : Z) : string := NilZero.string_of_int (Z.to_int z).

End PyNum.
Export PyNum.

(** [sys.maxsize] on a 64-bit CPython. *)
Definition sys_maxsize : Z := 9223372036854775807.

(* ================================================================= *)
(** ** Parsed JSON and the Python operations applied to it *)

#[warnings="-register-all"] Inductive json : Type :=
| JNull
| JBool (b : bool)
| JNum (n : pynum)
| JStr (s : string)
| JList (l : list json)
| JDict (items : list (string * json)).

Fixpoint dict_lookup (key : string) (items : list (string * json)) : option json :=
  match items with
  | [] => None
  | (k, v) :: rest => if String.eqb k key then Some v else dict_lookup key rest
  end.

(** [v[key]] with a string key. *)
Definition getitem_str (v : json) (key : string) : result json :=
  match v with
  | JDict items =>
      match dict_lookup key items with
      | Some x => Ok x
      | None => Err KeyError
      end
  | _ => Err TypeError
  end.

(** [l[i]] on a Python list: negative indices count from the end. *)
Definition list_getitem {A : Type} (l : list A) (i : Z) : result A :=
  let n := Z.of_nat (List.length l) in
  let j := if (i <? 0)%Z then i + n else i in
  if ((0 <=? j)%Z && (j <? n)%Z)%bool then
    match nth_error l (Z.to_nat j) with
    | Some x => Ok x
    | None => Err IndexError
    end
  else Err IndexError.

Fixpoint chars (s : string) : list json :=
  match s with
  | EmptyString => []
  | String c s' => JStr (String c EmptyString) :: chars s'
  end.

(** [v[i]] with an int index. *)
Definition getitem_int (v : json) (i : Z) : result json :=
  match v with
  | JList l => list_getitem l i
  | JStr s => list_getitem (chars s) i
  | JDict _ => Err KeyError
  | _ => Err TypeError
  end.

(** The items [for ... in v] (and [enumerate(v)]) goes through. *)
Definition py_iter (v : json) : result (list json) :=
  match v with
  | JList l => Ok l
  | JStr s => Ok (chars s)
  | JDict items => Ok (map (fun kv => JStr (fst kv)) items)
  | _ => Err TypeError
  end.

(** The operand of an order comparison or a division: numbers, and
    booleans as the ints 0 and 1; anything else is a [TypeError]. *)
Definition as_number (v : json) : result pynum :=
  match v with
  | JNum n => Ok n
  | JBool b => Ok (PyInt (if b then 1 else 0))
  | _ => Err TypeError
  end.

(* ================================================================= *)
(** ** Programs that talk to the server *)

Definition header_dict : Type := list (string * string).

(** One call of [requests.get]: the URL and the [headers=] argument
    ([None] when the call does not pass one). *)
Record http_request : Type := mk_request {
  req_url : string;
  req_headers : option header_dict
}.

Inductive py (A : Type) : Type :=
| Return (a : A)
| Raise (e : pyerr)
| HttpGet (request : string) (hdrs : option header_dict) (k : string -> py A).

Arguments Return {A} a.
Arguments Raise {A} e.
Arguments HttpGet {A} request hdrs k.

Fixpoint bind {A B : Type} (p : py A) (f : A -> py B) : py B :=
  match p with
  | Return a => f a
  | Raise e => Raise e
  | HttpGet u h k => HttpGet u h (fun text => bind (k text) f)
  end.

Definition lift {A : Type} (r : result A) : py A :=
  match r with
  | Ok a => Return a
  | Err e => Raise e
  end.

Declare Scope py_scope.
Delimit Scope py_scope with py.
Notation "x <- p ;; k" := (bind p (fun x => k))
  (at level 61, p at next level, right associativity) : py_scope.
Notation "' q <- p ;; k" := (bind p (fun x => let q := x in k))
  (at level 61, q pattern, p at next level, right associativity) : py_scope.

(** [run server p]: the requests [p] sends, in order, and its outcome.
    [server] maps a request to the [text] of the response. *)
Fixpoint run {A : Type} (server : http_request -> string) (p : py A)
  : list http_request * result A :=
  match p with
  | Return a => ([], Ok a)
  | Raise e => ([], Err e)
  | HttpGet u h k =>
      let req := mk_request u h in
      let '(sent, r) := run server (k (server req)) in
      (req :: sent, r)
  end.

Definition requests_sent {A : Type} (server : http_request -> string) (p : py A)
  : list http_request := fst (run server p).

Definition outcome {A : Type} (server : http_request -> string) (p : py A)
  : result A := snd (run server p).

(* ================================================================= *)
(** ** Strings *)

(** [s.rstrip(c)] for a one-character argument: every trailing [c] goes. *)
Fixpoint rstrip (c : ascii) (s : string) : string :=
  match s with
  | EmptyString => EmptyString
  | String a s' =>
      match rstrip c s' with
      | EmptyString => if Ascii.eqb a c then EmptyString else String a EmptyString
      | r => String a r
      end
  end.

(* ================================================================= *)
(** ** The class [TravelTimeOSRMCH] *)

(** A coordinate pair [[longitude, latitude]]; [obj[0]] is [fst] and
    [obj[1]] is [snd]. *)
Definition longlat : Type := (pynum * pynum)%type.

Module TravelTimeOSRMCH.

Definition ip_address : string := "127.0.0.1".
Definition port : string := "5001".

Definition url : string :=
  "http://" ++ ip_address ++ ":" ++ port ++ "/table/v1/driving/".

Definition headers : header_dict := [("Content-Type", "application/json")].

Section Methods.

(** [repr] of a float (the shortest decimal string that reads back as
    the same float) is CPython's, and so is [json.loads]: both are
    parameters of the methods. *)
Variable float_repr : spec_float -> string.
Variable json_loads : string -> result json.

Definition str (n : pynum) : string :=
  match n with
  | PyInt z => str_int z
  | PyFloat f => float_repr f
  end.

(** The loop [for obj in locations: data += str(obj[0]) + "," +
    str(obj[1]) + ";"], written three times in the source. *)
Definition request_data (locations : list longlat) : string :=
  fold_left
    (fun data obj =>
       let long_lat := str (fst obj) ++ "," ++ str (snd obj) ++ ";" in
       data ++ long_lat)
    locations "".

(** One iteration of the loop that finds the shortest travel time.
    [duration_of obj] is [obj[0]] in MANY-TO-ONE and [obj] itself in
    ONE-TO-MANY. *)
Definition shortest_step (duration_of : json -> result json)
    (idx : Z) (obj : json) (st : pynum * Z) : result (pynum * Z) :=
  let '(travel_time, saved_idx) := st in
  (v <- duration_of obj ;;
   duration <- as_number v ;;
   if (py_lt (PyInt 0) duration && py_lt duration travel_time)%bool
   then Ok (duration, idx - 1)
   else Ok (travel_time, saved_idx))%result.

Fixpoint shortest_loop (duration_of : json -> result json)
    (items : list json) (idx : Z) (st : pynum * Z) : result (pynum * Z) :=
  match items with
  | [] => Ok st
  | obj :: rest =>
      (st' <- shortest_step duration_of idx obj st ;;
       shortest_loop duration_of rest (idx + 1) st')%result
  end.

Definition first_of_row (obj : json) : result json := getitem_int obj 0.
Definition itself (obj : json) : result json := Ok obj.

Definition get_travel_time_many_to_one
    (sources_longlats : list longlat) (destination_longlat : longlat)
  : py (spec_float * longlat * longlat) :=
  let locations := destination_longlat :: sources_longlats in
  let data := request_data locations in
  let data_obj := rstrip ";" data in
  let ending_url := "?destinations=0&skip_waypoints=true" in
  let request := url ++ data_obj ++ ending_url in
  (response_text <- HttpGet request None Return ;;
   response_json <- lift (json_loads response_text) ;;
   durations <- lift (getitem_str response_json "durations") ;;
   rows <- lift (py_iter durations) ;;
   '(travel_time, saved_idx) <-
     lift (shortest_loop first_of_row rows 0 (PyInt sys_maxsize, -1)) ;;
   travel_time <- lift (py_truediv travel_time (PyInt 3600)) ;;
   source <- lift (list_getitem sources_longlats saved_idx) ;;
   Return (travel_time, source, destination_longlat))%py.

Definition get_travel_time_one_to_many
    (source_longlat : longlat) (destinations_longlats : list longlat)
  : py (spec_float * longlat * longlat) :=
  let locations := source_longlat :: destinations_longlats in
  let data := request_data locations in
  let data_obj := rstrip ";" data in
  let ending_url := "?sources=0&skip_waypoints=true" in
  let request := url ++ data_obj ++ ending_url in
  (response_text <- HttpGet request None Return ;;
   response_json <- lift (json_loads response_text) ;;
   durations <- lift (getitem_str response_json "durations") ;;
   row <- lift (getitem_int durations 0) ;;
   items <- lift (py_iter row) ;;
   '(travel_time, saved_idx) <-
     lift (shortest_loop itself items 0 (PyInt sys_maxsize, -1)) ;;
   travel_time <- lift (py_truediv travel_time (PyInt 3600)) ;;
   destination <- lift (list_getitem destinations_longlats saved_idx) ;;
   Return (travel_time, destination, source_longlat))%py.

Definition get_travel_time_one_to_one
    (source_longlat destination_longlat : longlat)
  : py (spec_float * longlat * longlat) :=
  let locations := ([source_longlat] ++ [destination_longlat])%list in
  let data := request_data locations in
  let data_obj := rstrip ";" data in
  let ending_url := "?sources=0&destinations=1&skip_waypoints=true" in
  let request := url ++ data_obj ++ ending_url in
  (response_text <- HttpGet request None Return ;;
   response_json <- lift (json_loads response_text) ;;
   durations <- lift (getitem_str response_json "durations") ;;
   row <- lift (getitem_int durations 0) ;;
   entry <- lift (getitem_int row 0) ;;
   duration <- lift (as_number entry) ;;
   travel_time <- lift (py_truediv duration (PyInt 3600)) ;;
   Return (travel_time, source_longlat, destination_longlat))%py.

End Methods.

End TravelTimeOSRMCH.
Import TravelTimeOSRMCH.

(* ================================================================= *)
(** ** Views of the methods used to state their properties *)

(** The numbers the selection loop compares, in order: [duration_of obj]
    read as the operand of [0 < duration]. *)
Fixpoint read_durations (duration_of : json -> result json)
    (items : list json) : result (list pynum) :=
  match items with
  | [] => Ok []
  | obj :: rest =>
      (v <- duration_of obj ;;
       duration <- as_number v ;;
       ds <- read_durations duration_of rest ;;
       Ok (duration :: ds))%result
  end.

(** Column 0 of the response matrix, scanned by MANY-TO-ONE. *)
Definition duration_column (response_json : json) : result (list pynum) :=
  (durations <- getitem_str response_json "durations" ;;
   rows <- py_iter durations ;;
   read_durations first_of_row rows)%result.

(** Row 0 of the response matrix, scanned by ONE-TO-MANY. *)
Definition duration_row (response_json : json) : result (list pynum) :=
  (durations <- getitem_str response_json "durations" ;;
   row <- getitem_int durations 0 ;;
   items <- py_iter row ;;
   read_durations itself items)%result.

(** The single entry read by ONE-TO-ONE. *)
Definition duration_entry (response_json : json) : result pynum :=
  (durations <- getitem_str response_json "durations" ;;
   row <- getitem_int durations 0 ;;
   entry <- getitem_int row 0 ;;
   as_number entry)%result.

(** The selection loop on durations that are already numbers. *)
Definition scan_step (idx : Z) (duration : pynum) (st : pynum * Z) : pynum * Z :=
  let '(travel_time, saved_idx) := st in
  if (py_lt (PyInt 0) duration && py_lt duration travel_time)%bool
  then (duration, idx - 1)
  else (travel_time, saved_idx).

Fixpoint scan (ds : list pynum) (idx : Z) (st : pynum * Z) : pynum * Z :=
  match ds with
  | [] => st
  | d :: rest => scan rest (idx + 1) (scan_step idx d st)
  end.

(** The state [travel_time = sys.maxsize; saved_idx = -1] before the loop. *)
Definition initial_state : pynum * Z := (PyInt sys_maxsize, -1).

(** A duration the loop can select: [0 < duration < sys.maxsize]. *)
Definition candidate (d : pynum) : bool :=
  (py_lt (PyInt 0) d && py_lt d (PyInt sys_maxsize))%bool.

(** The state after the loop: either nothing was selected, or the
    selected duration is a candidate, no strictly positive duration is
    below it, and every strictly positive duration before it is above it. *)
Definition selected (ds : list pynum) (st : pynum * Z) : Prop :=
  (st = initial_state /\ forall d, In d ds -> candidate d = false)
  \/
  (exists i d,
      nth_error ds i = Some d /\ candidate d = true /\
      st = (d, Z.of_nat i - 1) /\
      (forall j d', nth_error ds j = Some d' ->
                    py_lt (PyInt 0) d' = true -> py_lt d' d = false) /\
      (forall j d', (j < i)%nat -> nth_error ds j = Some d' ->
                    py_lt (PyInt 0) d' = true -> py_lt d d' = true)).

(** What both scanning methods do once the durations are read. *)
Definition pick (coords : list longlat) (fixed : longlat) (ds : list pynum)
  : result (spec_float * longlat * longlat) :=
  let '(travel_time, saved_idx) := scan ds 0 initial_state in
  (travel_time <- py_truediv travel_time (PyInt 3600) ;;
   coord <- list_getitem coords saved_idx ;;
   Ok (travel_time, coord, fixed))%result.

(** [sys.maxsize / 3600], what is returned when nothing was selected. *)
Definition sentinel_hours : spec_float :=
  binary64_div (SF_of_Z sys_maxsize) (SF_of_Z 3600).

(** The last character of a string, if any. *)
Fixpoint last_char (s : string) : option ascii :=
  match s with
  | EmptyString => None
  | String a EmptyString => Some a
  | String _ s' => last_char s'
  end.

Fixpoint contains (c : ascii) (s : string) : bool :=
  match s with
  | EmptyString => false
  | String a s' => (Ascii.eqb a c || contains c s')%bool
  end.

(** Modelled from the spec: the reader of the request string, which the
    source does not have (it only writes the string).  The round trip of
    the spec reads the string back as [longitude,latitude] pairs joined
    by [;].  [split] is Python's [s.split(sep)] for a one-character
    separator. *)
Fixpoint split (sep : ascii) (s : string) : list string :=
  match s with
  | EmptyString => [EmptyString]
  | String a s' =>
      if Ascii.eqb a sep then EmptyString :: split sep s'
      else match split sep s' with
           | [] => [String a EmptyString]
           | tok :: toks => String a tok :: toks
           end
  end.

Section Reader.

(** The reader of one number, the inverse of [str], is a parameter. *)
Variable parse_number : string -> option pynum.

(** Modelled from the spec: one [longitude,latitude] pair. *)
Definition parse_long_lat (tok : string) : option longlat :=
  match split "," tok with
  | [x; y] =>
      match parse_number x, parse_number y with
      | Some lon, Some lat => Some (lon, lat)
      | _, _ => None
      end
  | _ => None
  end.

(** Modelled from the spec: every pair of a list of tokens. *)
Fixpoint parse_all (toks : list string) : option (list longlat) :=
  match toks with
  | [] => Some []
  | tok :: rest =>
      match parse_long_lat tok, parse_all rest with
      | Some obj, Some objs => Some (obj :: objs)
      | _, _ => None
      end
  end.

(** Modelled from the spec: the pairs of a request string; the empty
    string holds no pair. *)
Definition parse_request_data (data_obj : string) : option (list longlat) :=
  match data_obj with
  | EmptyString => Some []
  | _ => parse_all (split ";" data_obj)
  end.

End Reader.

(** [float(3600)], the divisor once converted. *)
Definition float_3600 : spec_float :=
  Eval vm_compute in binary_normalize 53 1024 3600 0 false.

(** The requests of the three methods. *)
Section Requests.

Variable float_repr : spec_float -> string.

Definition long_lat (obj : longlat) : string :=
  str float_repr (fst obj) ++ "," ++ str float_repr (snd obj).

Definition request_url (locations : list longlat) (ending_url : string) : string :=
  url ++ rstrip ";" (request_data float_repr locations) ++ ending_url.

Definition many_to_one_request (sources : list longlat) (destination : longlat)
  : http_request :=
  mk_request
    (request_url (destination :: sources) "?destinations=0&skip_waypoints=true")
    None.

Definition one_to_many_request (source : longlat) (destinations : list longlat)
  : http_request :=
  mk_request
    (request_url (source :: destinations) "?sources=0&skip_waypoints=true")
    None.

Definition one_to_one_request (source destination : longlat) : http_request :=
  mk_request
    (request_url [source; destination]
       "?sources=0&destinations=1&skip_waypoints=true")
    None.

End Requests.

(* ================================================================= *)
(** ** Calls and the answers they get *)

Section Answers.

Variable float_repr : spec_float -> string.
Variable json_loads : string -> result json.
Variable server : http_request -> string.

(** The server answers the MANY-TO-ONE request with a matrix whose
    column 0 reads [ds]. *)
Definition many_to_one_durations (sources : list longlat)
    (destination : longlat) (ds : list pynum) : Prop :=
  exists response_json,
    json_loads (server (many_to_one_request float_repr sources destination)) =
    Ok response_json /\
    duration_column response_json = Ok ds.

(** The server answers the ONE-TO-MANY request with a matrix whose
    row 0 reads [ds]. *)
Definition one_to_many_durations (source : longlat)
    (destinations : list longlat) (ds : list pynum) : Prop :=
  exists response_json,
    json_loads (server (one_to_many_request float_repr source destinations)) =
    Ok response_json /\
    duration_row response_json = Ok ds.

(** The server answers the ONE-TO-ONE request with a matrix whose
    entry at row 0, column 0 is the number [d]. *)
Definition one_to_one_duration (source destination : longlat) (d : pynum) : Prop :=
  exists items row rows,
    json_loads (server (one_to_one_request float_repr source destination)) =
    Ok (JDict items) /\
    dict_lookup "durations" items = Some (JList (JList (JNum d :: row) :: rows)).

End Answers.

(** [d] is the smallest strictly positive duration of [ds]. *)
Definition minimum_positive (ds : list pynum) (d : pynum) : Prop :=
  In d ds /\ py_lt (PyInt 0) d = true /\
  forall d', In d' ds -> py_lt (PyInt 0) d' = true -> py_lt d' d = false.

(** Index [i] is the first one holding the smallest strictly positive
    duration: every strictly positive duration before it is larger. *)
Definition first_minimum (ds : list pynum) (i : nat) (d : pynum) : Prop :=
  nth_error ds i = Some d /\
  forall j d', nth_error ds j = Some d' -> py_lt (PyInt 0) d' = true ->
               py_lt d d' = false -> (i <= j)%nat.

(** The pairs of the request path joined by [;]. *)
Definition joined (float_repr : spec_float -> string)
    (locations : list longlat) : string :=
  String.concat ";" (map (long_lat float_repr) locations).

(** The string of the latitude does not end with the separator. *)
Definition no_trailing_semicolon (float_repr : spec_float -> string)
    (obj : longlat) : Prop :=
  last_char (str float_repr (snd obj)) <> Some ";"%char.

Section Readable.

Variable float_repr : spec_float -> string.
Variable parse_number : string -> option pynum.

(** A number whose string has no separator in it and reads back. *)
Definition readable (n : pynum) : Prop :=
  contains ";" (str float_repr n) = false /\
  contains "," (str float_repr n) = false /\
  parse_number (str float_repr n) = Some n.

Definition readable_pair (obj : longlat) : Prop :=
  readable (fst obj) /\ readable (snd obj).

End Readable.

(** Modelled from the spec: a reader of numbers that tries an int first,
    as the decimal string [str] gives it, and a float otherwise. *)
Definition parse_int (s : string) : option Z :=
  option_map Z.of_int (NilZero.int_of_string s).

Definition parse_number_with (parse_float : string -> option spec_float)
    (s : string) : option pynum :=
  match parse_int s with
  | Some z => Some (PyInt z)
  | None => option_map PyFloat (parse_float s)
  end.

(* ================================================================= *)
(** ** Mocked servers and sample calls *)

Module Sample.

Definition sf_eqb (f g : spec_float) : bool :=
  match f, g with
  | S754_zero a, S754_zero b => Bool.eqb a b
  | S754_infinity a, S754_infinity b => Bool.eqb a b
  | S754_nan, S754_nan => true
  | S754_finite a m e, S754_finite b n k =>
      (Bool.eqb a b && Pos.eqb m n && Z.eqb e k)%bool
  | _, _ => false
  end.

(** A [repr] known on the floats of a table only. *)
Fixpoint repr_table (table : list (spec_float * string)) (f : spec_float) : string :=
  match table with
  | [] => "nan"
  | (g, s) :: rest => if sf_eqb f g then s else repr_table rest f
  end.

Fixpoint read_table (table : list (spec_float * string)) (s : string)
  : option spec_float :=
  match table with
  | [] => None
  | (g, t) :: rest => if String.eqb s t then Some g else read_table rest s
  end.

Definition f18_0686 : spec_float := S754_finite false 5085858764194159 (-48).
Definition f59_3293 : spec_float := S754_finite false 8349856667879762 (-47).
Definition f17_6389 : spec_float := S754_finite false 4964908966701590 (-48).
Definition f59_8586 : spec_float := S754_finite false 8424349020466237 (-47).

Definition table : list (spec_float * string) :=
  [(f18_0686, "18.0686"); (f59_3293, "59.3293");
   (f17_6389, "17.6389"); (f59_8586, "59.8586")].

Definition float_repr : spec_float -> string := repr_table table.
Definition parse_number : string -> option pynum :=
  parse_number_with (read_table table).

Definition stockholm : longlat := (PyFloat f18_0686, PyFloat f59_3293).
Definition uppsala : longlat := (PyFloat f17_6389, PyFloat f59_8586).

Definition A : longlat := (PyInt 1, PyInt 1).
Definition B : longlat := (PyInt 2, PyInt 2).
Definition C : longlat := (PyInt 3, PyInt 3).
Definition D : longlat := (PyInt 0, PyInt (-7)).

(** The parsed answer of the table service for a matrix of numbers. *)
Definition response (matrix : list (list pynum)) : json :=
  JDict [("code", JStr "Ok");
         ("durations", JList (map (fun row => JList (map JNum row)) matrix))].

Definition column (ds : list pynum) : json := response (map (fun d => [d]) ds).
Definition row (ds : list pynum) : json := response [ds].

(** A server whose answer always parses to [answer]. *)
Definition server : http_request -> string := fun _ => "(response text)".
Definition json_loads (answer : json) : string -> result json :=
  fun _ => Ok answer.

Definition many_to_one (answer : json) (sources : list longlat)
    (destination : longlat) : result (spec_float * longlat * longlat) :=
  outcome server
    (get_travel_time_many_to_one float_repr (json_loads answer) sources destination).

Definition one_to_many (answer : json) (source : longlat)
    (destinations : list longlat) : result (spec_float * longlat * longlat) :=
  outcome server
    (get_travel_time_one_to_many float_repr (json_loads answer) source destinations).

Definition one_to_one (answer : json) (source destination : longlat)
  : result (spec_float * longlat * longlat) :=
  outcome server
    (get_travel_time_one_to_one float_repr (json_loads answer) source destination).

(** [50 / 3600], [5 / 3600] and [0.5] as Python computes them. *)
Definition hours_50 : spec_float := S754_finite false 8006399337547548 (-59).
Definition hours_5 : spec_float :=
  Eval vm_compute in binary64_div (SF_of_Z 5) (SF_of_Z 3600).
Definition half : spec_float := S754_finite false 4503599627370496 (-53).

End Sample.

(* ================================================================= *)
(** ** Shapes of answers and of results *)

(** The sign bit of a float is clear and the float is not a NaN. *)
Definition sign_clear (t : spec_float) : bool :=
  match t with
  | S754_zero s | S754_infinity s | S754_finite s _ _ => negb s
  | S754_nan => false
  end.

(** A matrix entry as the table service sends it: a number, or [null]
    for a pair with no route. *)
Definition number_or_null (v : json) : Prop :=
  v = JNull \/ exists n, v = JNum n.

(** [vs] are the first entries of the rows [rows], each row a list. *)
Definition first_entries (rows vs : list json) : Prop :=
  Forall2 (fun row v => exists rest, row = JList (v :: rest)) rows vs.

(** The answer is an object whose [durations] field is [durations]. *)
Definition answer_with (response_json durations : json) : Prop :=
  exists items,
    response_json = JDict items /\
    dict_lookup "durations" items = Some durations.

(* ================================================================= *)
(** ** The order on numbers *)

Section Order.

Lemma Qlt_bool_iff (p q : Q) : Qlt_bool p q = true <-> (p < q)%Q.
Proof.
  unfold Qlt_bool. rewrite Qlt_alt.
  destruct (p ?= q)%Q; split; intro H; congruence.
Qed.

Lemma Qlt_bool_false_iff (p q : Q) : Qlt_bool p q = false <-> (q <= p)%Q.
Proof.
  split; intro H.
  - apply Qnot_lt_le. intro L. apply Qlt_bool_iff in L. congruence.
  - destruct (Qlt_bool p q) eqn:E; [|reflexivity].
    apply Qlt_bool_iff in E. exfalso. exact (Qlt_not_le _ _ E H).
Qed.

Lemma xlt_irrefl (a : xreal) : xlt a a = false.
Proof.
  destruct a; simpl; try reflexivity.
  apply Qlt_bool_false_iff. apply Qle_refl.
Qed.

Lemma xlt_trans (a b c : xreal) :
  xlt a b = true -> xlt b c = true -> xlt a c = true.
Proof.
  destruct a, b, c; simpl; try discriminate; try reflexivity.
  rewrite !Qlt_bool_iff. apply Qlt_trans.
Qed.

Lemma xlt_asym (a b : xreal) : xlt a b = true -> xlt b a = false.
Proof.
  destruct a, b; simpl; try discriminate; try reflexivity.
  rewrite Qlt_bool_iff, Qlt_bool_false_iff. apply Qlt_le_weak.
Qed.

(** [a < c] and [c <= b] give [a < b], for a [b] that is not a NaN
    (it is above some [z]). *)
Lemma xlt_below (z a b c : xreal) :
  xlt z b = true -> xlt a c = true -> xlt b c = false -> xlt a b = true.
Proof.
  destruct z, a, b, c; simpl; try discriminate; try reflexivity;
    intros _; rewrite Qlt_bool_iff, Qlt_bool_false_iff, Qlt_bool_iff;
    apply Qlt_le_trans.
Qed.

Lemma py_lt_irrefl (a : pynum) : py_lt a a = false.
Proof. apply xlt_irrefl. Qed.

Lemma py_lt_trans (a b c : pynum) :
  py_lt a b = true -> py_lt b c = true -> py_lt a c = true.
Proof. apply xlt_trans. Qed.

Lemma py_lt_asym (a b : pynum) : py_lt a b = true -> py_lt b a = false.
Proof. apply xlt_asym. Qed.

Lemma py_lt_below (z a b c : pynum) :
  py_lt z b = true -> py_lt a c = true -> py_lt b c = false ->
  py_lt a b = true.
Proof. apply xlt_below. Qed.

End Order.

(* ================================================================= *)
(** ** The selection loop *)

Section Selection.

Lemma shortest_loop_scan (duration_of : json -> result json) (items : list json) :
  forall idx st,
    shortest_loop duration_of items idx st =
    (ds <- read_durations duration_of items ;; Ok (scan ds idx st))%result.
Proof.
  induction items as [|obj rest IH]; intros idx [travel_time saved_idx]; simpl.
  - reflexivity.
  - destruct (duration_of obj) as [v|e]; simpl; [|reflexivity].
    destruct (as_number v) as [d|e]; simpl; [|reflexivity].
    destruct (py_lt (PyInt 0) d && py_lt d travel_time)%bool eqn:Ecmp; simpl;
      rewrite IH; destruct (read_durations duration_of rest); simpl;
      rewrite ?Ecmp; reflexivity.
Qed.

Lemma scan_app (ds : list pynum) (x : pynum) :
  forall idx st,
    scan (ds ++ [x]) idx st =
    scan_step (idx + Z.of_nat (List.length ds)) x (scan ds idx st).
Proof.
  induction ds as [|d rest IH]; intros idx st.
  - simpl. now rewrite Z.add_0_r.
  - change ((d :: rest) ++ [x])%list with (d :: (rest ++ [x]))%list.
    cbn [scan]. rewrite IH. f_equal. cbn [List.length]. lia.
Qed.

Lemma nth_error_snoc {A : Type} (l : list A) (x y : A) (j : nat) :
  nth_error (l ++ [x]) j = Some y ->
  ((j < List.length l)%nat /\ nth_error l j = Some y) \/ (j = List.length l /\ y = x).
Proof.
  intro H. destruct (Nat.lt_ge_cases j (List.length l)) as [L|G].
  - left. split; [exact L|]. now rewrite nth_error_app1 in H.
  - right. rewrite nth_error_app2 in H by exact G.
    destruct (j - List.length l)%nat as [|k] eqn:E; simpl in H.
    + split; [lia | congruence].
    + destruct k; discriminate.
Qed.

Lemma scan_selected (ds : list pynum) : selected ds (scan ds 0 initial_state).
Proof.
  induction ds as [|x ds IH] using rev_ind.
  - left. split; [reflexivity | intros d []].
  - rewrite scan_app, Z.add_0_l.
    destruct (scan ds 0 initial_state) as [tt si] eqn:Est.
    unfold scan_step.
    destruct (py_lt (PyInt 0) x && py_lt x tt)%bool eqn:Ecmp.
    + (* [x] replaces the best duration so far *)
      apply andb_prop in Ecmp. destruct Ecmp as [Hpos Hlt].
      assert (Hold : forall j d', nth_error ds j = Some d' ->
                 py_lt (PyInt 0) d' = true -> py_lt d' tt = false).
      { destruct IH as [[E Hnone]|(i & d & Hi & Hc & E & Hmin & _)].
        - injection E as -> ->. intros j d' Hj Hd'.
          apply nth_error_In in Hj. specialize (Hnone _ Hj).
          unfold candidate in Hnone. rewrite Hd' in Hnone. exact Hnone.
        - injection E as -> ->. exact Hmin. }
      assert (Hcand : candidate x = true).
      { unfold candidate. rewrite Hpos. simpl.
        destruct IH as [[E _]|(i & d & _ & Hc & E & _)]; injection E as -> ->.
        - exact Hlt.
        - unfold candidate in Hc. apply andb_prop in Hc.
          exact (py_lt_trans _ _ _ Hlt (proj2 Hc)). }
      right. exists (List.length ds), x. repeat split.
      * rewrite nth_error_app2 by lia. now rewrite Nat.sub_diag.
      * exact Hcand.
      * intros j d' Hj Hd'. apply nth_error_snoc in Hj.
        destruct Hj as [[_ Hj]|[_ ->]].
        -- apply py_lt_asym.
           exact (py_lt_below _ _ _ _ Hd' Hlt (Hold _ _ Hj Hd')).
        -- apply py_lt_irrefl.
      * intros j d' Hlen Hj Hd'. rewrite nth_error_app1 in Hj by exact Hlen.
        exact (py_lt_below _ _ _ _ Hd' Hlt (Hold _ _ Hj Hd')).
    + (* the state is unchanged *)
      destruct IH as [[E Hnone]|(i & d & Hi & Hc & E & Hmin & Hfirst)].
      * left. split; [exact E|]. intros d Hd.
        apply in_app_or in Hd. destruct Hd as [Hd|[<-|[]]]; [auto|].
        injection E as -> _. exact Ecmp.
      * right. exists i, d.
        assert (Hlen : (i < List.length ds)%nat).
        { apply nth_error_Some. congruence. }
        repeat split.
        -- rewrite nth_error_app1 by exact Hlen. exact Hi.
        -- exact Hc.
        -- exact E.
        -- intros j d' Hj Hd'. apply nth_error_snoc in Hj.
           destruct Hj as [[_ Hj]|[_ ->]]; [eauto|].
           injection E as -> _. rewrite Hd' in Ecmp. exact Ecmp.
        -- intros j d' Hji Hj Hd'.
           rewrite nth_error_app1 in Hj by lia. eauto.
Qed.

End Selection.

(* ================================================================= *)
(** ** Division by 3600 is defined on every duration the loop selects *)

Section NoOverflow.

Lemma digits2_pos_size (p : positive) : digits2_pos p = Pos.size p.
Proof. induction p; simpl; congruence. Qed.

Lemma Zdigits2_bound (m k : Z) : 0 <= m < 2 ^ k -> 0 <= k -> Zdigits2 m <= k.
Proof.
  intros [Hm Hlt] Hk. destruct m as [|p|p]; simpl; [exact Hk | | lia].
  rewrite digits2_pos_size.
  destruct (Z_le_gt_dec (Zpos (Pos.size p)) k) as [L|G]; [exact L|exfalso].
  pose proof (Pos.size_le p) as Hs.
  assert (H2 : 2 ^ Zpos (Pos.size p) <= 2 * Zpos p).
  { change (2 * Zpos p) with (Zpos p~0). rewrite <- Pos2Z.inj_pow.
    apply Pos2Z.pos_le_pos. exact Hs. }
  assert (H3 : 2 ^ (k + 1) <= 2 ^ Zpos (Pos.size p)).
  { apply Z.pow_le_mono_r; lia. }
  rewrite Z.pow_add_r in H3 by lia. lia.
Qed.

Lemma shr_1_bound (r : shr_record) :
  0 <= shr_m r -> 0 <= shr_m (shr_1 r) <= shr_m r.
Proof.
  destruct r as [m a b]. simpl. destruct m as [|p|p]; simpl; [lia| |lia].
  destruct p; simpl; lia.
Qed.

Lemma iter_shr_1_bound (n : positive) :
  forall r, 0 <= shr_m r -> 0 <= shr_m (iter_pos shr_1 n r) <= shr_m r.
Proof.
  induction n as [n IH|n IH|]; intros r Hr; simpl.
  - pose proof (shr_1_bound r Hr) as H1.
    pose proof (IH (shr_1 r) (proj1 H1)) as H2.
    pose proof (IH _ (proj1 H2)) as H3. lia.
  - pose proof (IH r Hr) as H2.
    pose proof (IH _ (proj1 H2)) as H3. lia.
  - apply shr_1_bound, Hr.
Qed.

Lemma shr_fexp_bound (m e : Z) (l : location) :
  0 <= m ->
  0 <= shr_m (fst (shr_fexp 53 1024 m e l)) <= m /\
  snd (shr_fexp 53 1024 m e l) <= Z.max e (fexp 53 1024 (Zdigits2 m + e)).
Proof.
  intro Hm. unfold shr_fexp, shr.
  assert (H0 : shr_m (shr_record_of_loc m l) = m).
  { destruct l as [|[ | | ]]; reflexivity. }
  destruct (fexp 53 1024 (Zdigits2 m + e) - e) as [|n|n] eqn:En; simpl.
  - rewrite H0. lia.
  - pose proof (iter_shr_1_bound n (shr_record_of_loc m l)) as H.
    rewrite H0 in H. split; [apply H, Hm | lia].
  - rewrite H0. lia.
Qed.

Lemma round_nearest_even_bound (m : Z) (l : location) :
  m <= round_nearest_even m l <= m + 1.
Proof.
  unfold round_nearest_even. destruct l as [|[ | | ]]; try lia.
  destruct (Z.even m); lia.
Qed.

Lemma binary_round_aux_finite (sx : bool) (mx ex : Z) (lx : location) :
  0 <= mx < 2 ^ 200 -> ex <= 0 ->
  forall s, binary_round_aux 53 1024 sx mx ex lx <> S754_infinity s.
Proof.
  intros [Hm Hlt] Hex s. unfold binary_round_aux.
  pose proof (shr_fexp_bound mx ex lx Hm) as [H1 H1e].
  destruct (shr_fexp 53 1024 mx ex lx) as [r1 e1]. simpl in H1, H1e.
  set (m1 := round_nearest_even (shr_m r1) (loc_of_shr_record r1)).
  pose proof (round_nearest_even_bound (shr_m r1) (loc_of_shr_record r1)) as Hr.
  fold m1 in Hr.
  assert (Hm1 : 0 <= m1) by lia.
  pose proof (shr_fexp_bound m1 e1 loc_Exact Hm1) as [H2 H2e].
  destruct (shr_fexp 53 1024 m1 e1 loc_Exact) as [r2 e2]. simpl in H2, H2e.
  assert (Hd : Zdigits2 mx <= 200) by (apply Zdigits2_bound; lia).
  assert (Hd1 : Zdigits2 m1 <= 201).
  { apply Zdigits2_bound; [|lia]. split; [lia|].
    change (2 ^ 201) with (2 * 2 ^ 200). lia. }
  unfold fexp, emin in H1e, H2e.
  destruct (shr_m r2); try discriminate.
  destruct (e2 <=? 1024 - 53) eqn:E; [discriminate|].
  apply Z.leb_gt in E. lia.
Qed.

Lemma div_core_3600_bound (p : positive) :
  Zpos p < 2 ^ 63 ->
  let '(q, e, _) := SFdiv_core_binary 53 1024 (Zpos p) 0 3600 0 in
  0 <= q < 2 ^ 200 /\ e <= 0.
Proof.
  intro Hp. unfold SFdiv_core_binary.
  change (Zdigits2 3600) with 12.
  set (e := Z.min (fexp 53 1024 (Zdigits2 (Zpos p) + 0 - (12 + 0))) (0 - 0)).
  assert (He : -64 <= e <= 0).
  { unfold e, fexp, emin. simpl Zdigits2. lia. }
  set (m := match 0 - 0 - e with
            | 0 => Zpos p
            | Zpos _ => Z.shiftl (Zpos p) (0 - 0 - e)
            | Zneg _ => 0
            end).
  assert (Hm : 0 <= m < 2 ^ 200).
  { unfold m. destruct (0 - 0 - e) as [|s|s] eqn:Es.
    - split; [lia|]. apply Z.lt_trans with (2 ^ 63); [exact Hp|].
      apply Z.pow_lt_mono_r; lia.
    - rewrite Z.shiftl_mul_pow2 by lia. split; [lia|].
      apply Z.lt_le_trans with (2 ^ 63 * 2 ^ Zpos s).
      + apply Z.mul_lt_mono_pos_r; [lia | exact Hp].
      + rewrite <- Z.pow_add_r by lia. apply Z.pow_le_mono_r; lia.
    - split; [lia|]. apply Z.pow_pos_nonneg; lia. }
  pose proof (Z_div_mod m 3600 eq_refl) as Hdiv.
  destruct (Z.div_eucl m 3600) as [q r].
  split; [nia | lia].
Qed.

Lemma int_div_3600_finite (z : Z) (s : bool) :
  - 2 ^ 63 < z < 2 ^ 63 ->
  binary64_div (SF_of_Z z) (SF_of_Z 3600) <> S754_infinity s.
Proof.
  intros Hz. destruct z as [|p|p]; simpl; [discriminate| |].
  - pose proof (div_core_3600_bound p (proj2 Hz)) as H.
    destruct (SFdiv_core_binary 53 1024 (Zpos p) 0 3600 0) as [[q e] l].
    destruct H as [Hq He]. apply binary_round_aux_finite; assumption.
  - assert (Hp : Zpos p < 2 ^ 63) by lia.
    pose proof (div_core_3600_bound p Hp) as H.
    destruct (SFdiv_core_binary 53 1024 (Zpos p) 0 3600 0) as [[q e] l].
    destruct H as [Hq He]. apply binary_round_aux_finite; assumption.
Qed.
End NoOverflow.

Section Division.

Lemma py_lt_int (x y : Z) : py_lt (PyInt x) (PyInt y) = true <-> x < y.
Proof.
  unfold py_lt. simpl. rewrite Qlt_bool_iff, <- Zlt_Qlt. reflexivity.
Qed.

Lemma truediv_int_3600 (z : Z) :
  - 2 ^ 63 < z < 2 ^ 63 ->
  py_truediv (PyInt z) (PyInt 3600) =
  Ok (binary64_div (SF_of_Z z) (SF_of_Z 3600)).
Proof.
  intro Hz. unfold py_truediv. change (3600 =? 0)%Z with false. cbv iota.
  pose proof (int_div_3600_finite z) as Hfin.
  destruct (binary64_div (SF_of_Z z) (SF_of_Z 3600)); try reflexivity.
  exfalso. exact (Hfin s Hz eq_refl).
Qed.

Lemma truediv_float_3600 (f : spec_float) :
  py_truediv (PyFloat f) (PyInt 3600) = Ok (binary64_div f float_3600).
Proof. reflexivity. Qed.

Lemma truediv_sentinel :
  py_truediv (PyInt sys_maxsize) (PyInt 3600) = Ok sentinel_hours.
Proof. apply truediv_int_3600. unfold sys_maxsize. lia. Qed.

Lemma truediv_candidate (d : pynum) :
  candidate d = true -> exists t, py_truediv d (PyInt 3600) = Ok t.
Proof.
  intro Hc. destruct d as [z|f].
  - unfold candidate in Hc. apply andb_prop in Hc. destruct Hc as [H0 H1].
    apply py_lt_int in H0. apply py_lt_int in H1. unfold sys_maxsize in H1.
    eexists. apply truediv_int_3600. lia.
  - eexists. apply truediv_float_3600.
Qed.

End Division.

(* ================================================================= *)
(** ** What the three methods send and return *)

Section Outcomes.

Variable float_repr : spec_float -> string.
Variable json_loads : string -> result json.
Variable server : http_request -> string.

Lemma run_lift {A B : Type} (r : result A) (f : A -> py B) :
  run server (bind (lift r) f) =
  match r with
  | Ok a => run server (f a)
  | Err e => ([], Err e)
  end.
Proof. destruct r; reflexivity. Qed.

Lemma many_to_one_run (sources : list longlat) (destination : longlat) :
  run server (get_travel_time_many_to_one float_repr json_loads sources destination) =
  ([many_to_one_request float_repr sources destination],
   (response_json <-
      json_loads (server (many_to_one_request float_repr sources destination)) ;;
    ds <- duration_column response_json ;;
    pick sources destination ds)%result).
Proof.
  unfold get_travel_time_many_to_one, many_to_one_request, request_url.
  set (req := mk_request _ None).
  cbn [bind run]. fold req.
  rewrite run_lift. destruct (json_loads (server req)) as [resp|e]; [|reflexivity].
  unfold duration_column, pick. cbn [rbind].
  rewrite run_lift. destruct (getitem_str resp "durations") as [durs|e]; [|reflexivity].
  cbn [rbind]. rewrite run_lift. destruct (py_iter durs) as [rows|e]; [|reflexivity].
  cbn [rbind]. rewrite run_lift, shortest_loop_scan.
  destruct (read_durations first_of_row rows) as [ds|e]; [|reflexivity].
  cbn [rbind]. unfold initial_state.
  destruct (scan ds 0 (PyInt sys_maxsize, -1)) as [tt si].
  rewrite run_lift. destruct (py_truediv tt (PyInt 3600)) as [t|e]; [|reflexivity].
  cbn [rbind]. rewrite run_lift.
  destruct (list_getitem sources si) as [c|e]; reflexivity.
Qed.

Lemma one_to_many_run (source : longlat) (destinations : list longlat) :
  run server (get_travel_time_one_to_many float_repr json_loads source destinations) =
  ([one_to_many_request float_repr source destinations],
   (response_json <-
      json_loads (server (one_to_many_request float_repr source destinations)) ;;
    ds <- duration_row response_json ;;
    pick destinations source ds)%result).
Proof.
  unfold get_travel_time_one_to_many, one_to_many_request, request_url.
  set (req := mk_request _ None).
  cbn [bind run]. fold req.
  rewrite run_lift. destruct (json_loads (server req)) as [resp|e]; [|reflexivity].
  unfold duration_row, pick. cbn [rbind].
  rewrite run_lift. destruct (getitem_str resp "durations") as [durs|e]; [|reflexivity].
  cbn [rbind]. rewrite run_lift. destruct (getitem_int durs 0) as [row|e]; [|reflexivity].
  cbn [rbind]. rewrite run_lift. destruct (py_iter row) as [items|e]; [|reflexivity].
  cbn [rbind]. rewrite run_lift, shortest_loop_scan.
  destruct (read_durations itself items) as [ds|e]; [|reflexivity].
  cbn [rbind]. unfold initial_state.
  destruct (scan ds 0 (PyInt sys_maxsize, -1)) as [tt si].
  rewrite run_lift. destruct (py_truediv tt (PyInt 3600)) as [t|e]; [|reflexivity].
  cbn [rbind]. rewrite run_lift.
  destruct (list_getitem destinations si) as [c|e]; reflexivity.
Qed.

Lemma one_to_one_run (source destination : longlat) :
  run server (get_travel_time_one_to_one float_repr json_loads source destination) =
  ([one_to_one_request float_repr source destination],
   (response_json <-
      json_loads (server (one_to_one_request float_repr source destination)) ;;
    duration <- duration_entry response_json ;;
    travel_time <- py_truediv duration (PyInt 3600) ;;
    Ok (travel_time, source, destination))%result).
Proof.
  unfold get_travel_time_one_to_one, one_to_one_request, request_url.
  change ([source] ++ [destination])%list with [source; destination].
  set (req := mk_request _ None).
  cbn [bind run]. fold req.
  rewrite run_lift. destruct (json_loads (server req)) as [resp|e]; [|reflexivity].
  unfold duration_entry. cbn [rbind].
  rewrite run_lift. destruct (getitem_str resp "durations") as [durs|e]; [|reflexivity].
  cbn [rbind]. rewrite run_lift. destruct (getitem_int durs 0) as [row|e]; [|reflexivity].
  cbn [rbind]. rewrite run_lift. destruct (getitem_int row 0) as [entry|e]; [|reflexivity].
  cbn [rbind]. rewrite run_lift. destruct (as_number entry) as [d|e]; [|reflexivity].
  cbn [rbind]. rewrite run_lift.
  destruct (py_truediv d (PyInt 3600)) as [t|e]; reflexivity.
Qed.

End Outcomes.

(* ================================================================= *)
(** ** Looking the selected coordinate up *)

Section Lookup.

Context {A : Type}.

Lemma list_getitem_nonneg (l : list A) (k : nat) (x : A) :
  nth_error l k = Some x -> list_getitem l (Z.of_nat k) = Ok x.
Proof.
  intro H. unfold list_getitem.
  assert (Hk : (k < List.length l)%nat) by (apply nth_error_Some; congruence).
  destruct (Z.of_nat k <? 0) eqn:E; [apply Z.ltb_lt in E; lia|].
  replace ((0 <=? Z.of_nat k) && (Z.of_nat k <? Z.of_nat (List.length l)))%bool
    with true.
  - now rewrite Nat2Z.id, H.
  - symmetry. apply andb_true_intro. split; [apply Z.leb_le | apply Z.ltb_lt]; lia.
Qed.

Lemma list_getitem_nonneg_inv (l : list A) (k : nat) (x : A) :
  list_getitem l (Z.of_nat k) = Ok x -> nth_error l k = Some x.
Proof.
  unfold list_getitem.
  destruct (Z.of_nat k <? 0) eqn:E; [apply Z.ltb_lt in E; lia|].
  destruct ((0 <=? Z.of_nat k) && (Z.of_nat k <? Z.of_nat (List.length l)))%bool;
    [|discriminate].
  rewrite Nat2Z.id. destruct (nth_error l k); [congruence | discriminate].
Qed.

Lemma list_getitem_last (l : list A) (x : A) :
  list_getitem (l ++ [x]) (-1) = Ok x.
Proof.
  unfold list_getitem. rewrite length_app. cbn [List.length].
  change (-1 <? 0) with true. cbv iota.
  replace (-1 + Z.of_nat (List.length l + 1)) with (Z.of_nat (List.length l)) by lia.
  replace ((0 <=? Z.of_nat (List.length l)) &&
           (Z.of_nat (List.length l) <? Z.of_nat (List.length l + 1)))%bool with true.
  - rewrite Nat2Z.id, nth_error_app2 by lia. now rewrite Nat.sub_diag.
  - symmetry. apply andb_true_intro. split; [apply Z.leb_le | apply Z.ltb_lt]; lia.
Qed.

Lemma list_getitem_defined (l : list A) (i : nat) :
  l <> [] -> (i <= List.length l)%nat ->
  exists x, list_getitem l (Z.of_nat i - 1) = Ok x.
Proof.
  intros Hne Hi. destruct i as [|k].
  - destruct (exists_last Hne) as (l' & x & ->).
    exists x. apply list_getitem_last.
  - destruct (nth_error l k) as [x|] eqn:E.
    + exists x. replace (Z.of_nat (S k) - 1) with (Z.of_nat k) by lia.
      now apply list_getitem_nonneg.
    + apply nth_error_None in E. lia.
Qed.

End Lookup.

(* ================================================================= *)
(** ** The result of a scan *)

Section Pick.

Variables (coords : list longlat) (fixed : longlat).

(** Nothing selectable: the sentinel comes back with the last coordinate. *)
Lemma pick_nothing (ds : list pynum) (init : list longlat) (c : longlat) :
  (forall d, In d ds -> candidate d = false) ->
  coords = (init ++ [c])%list ->
  pick coords fixed ds = Ok (sentinel_hours, c, fixed).
Proof.
  intros Hnone ->. unfold pick.
  destruct (scan_selected ds) as [[-> _]|(i & d & Hi & Hc & _)].
  - unfold initial_state. rewrite truediv_sentinel. cbn [rbind].
    now rewrite list_getitem_last.
  - apply nth_error_In in Hi. rewrite (Hnone _ Hi) in Hc. discriminate.
Qed.

(** Something selectable: the first of the smallest candidates wins. *)
Lemma pick_candidate (ds : list pynum) :
  (exists d, In d ds /\ candidate d = true) ->
  (List.length ds <= S (List.length coords))%nat ->
  coords <> [] ->
  exists i d t c,
    nth_error ds i = Some d /\ candidate d = true /\
    (forall j d', nth_error ds j = Some d' ->
                  py_lt (PyInt 0) d' = true -> py_lt d' d = false) /\
    (forall j d', (j < i)%nat -> nth_error ds j = Some d' ->
                  py_lt (PyInt 0) d' = true -> py_lt d d' = true) /\
    py_truediv d (PyInt 3600) = Ok t /\
    list_getitem coords (Z.of_nat i - 1) = Ok c /\
    pick coords fixed ds = Ok (t, c, fixed).
Proof.
  intros (d0 & Hin & Hc0) Hlen Hne. unfold pick.
  destruct (scan_selected ds) as [[_ Hnone]|(i & d & Hi & Hc & -> & Hmin & Hfirst)].
  - rewrite (Hnone _ Hin) in Hc0. discriminate.
  - destruct (truediv_candidate d Hc) as [t Ht].
    assert (Hi' : (i < List.length ds)%nat) by (apply nth_error_Some; congruence).
    destruct (list_getitem_defined coords i Hne) as [c Hcoord]; [lia|].
    exists i, d, t, c. rewrite Ht. cbn [rbind]. rewrite Hcoord. cbn [rbind].
    repeat split; assumption.
Qed.

End Pick.

(* ================================================================= *)
(** ** The request string *)

Section RequestString.

Lemma append_empty_r (s : string) : s ++ "" = s.
Proof. induction s; simpl; congruence. Qed.

Lemma append_assoc (a b c : string) : (a ++ b) ++ c = a ++ (b ++ c).
Proof. induction a; simpl; congruence. Qed.

Lemma rstrip_cons (c a : ascii) (s : string) :
  rstrip c s <> "" -> rstrip c (String a s) = String a (rstrip c s).
Proof. simpl. destruct (rstrip c s); [congruence | reflexivity]. Qed.

Lemma rstrip_app (c : ascii) (a b : string) :
  rstrip c b <> "" -> rstrip c (a ++ b) = a ++ rstrip c b.
Proof.
  intro Hb. induction a as [|x a IH]; [reflexivity|].
  cbn [append]. rewrite rstrip_cons; rewrite IH; [reflexivity|].
  destruct a; [exact Hb | discriminate].
Qed.

Lemma rstrip_id (c : ascii) (s : string) :
  last_char s <> Some c -> rstrip c s = s.
Proof.
  induction s as [|a s IH]; [reflexivity|]. intro H.
  destruct s as [|b s'].
  - simpl. destruct (Ascii.eqb_spec a c) as [->|_]; [|reflexivity].
    exfalso. apply H. reflexivity.
  - assert (Hs : rstrip c (String b s') = String b s') by (apply IH; exact H).
    rewrite rstrip_cons; rewrite Hs; [reflexivity | discriminate].
Qed.

Lemma last_char_app (s : string) (a : ascii) (t : string) :
  last_char (s ++ String a t) = last_char (String a t).
Proof.
  induction s as [|x s IH]; [reflexivity|].
  cbn [append]. destruct s; exact IH.
Qed.

Variable float_repr : spec_float -> string.

Lemma fold_data (locations : list longlat) :
  forall data,
    fold_left
      (fun data obj =>
         data ++ (str float_repr (fst obj) ++ "," ++ str float_repr (snd obj) ++ ";"))
      locations data =
    data ++ request_data float_repr locations.
Proof.
  unfold request_data.
  induction locations as [|obj rest IH]; intro data; cbn [fold_left].
  - now rewrite append_empty_r.
  - rewrite IH. rewrite (IH ("" ++ _)). cbn [append]. now rewrite append_assoc.
Qed.

Lemma request_data_cons (obj : longlat) (rest : list longlat) :
  request_data float_repr (obj :: rest) =
  long_lat float_repr obj ++ String ";" (request_data float_repr rest).
Proof.
  unfold request_data at 1. cbn [fold_left].
  rewrite fold_data. unfold long_lat. cbn [append].
  repeat (rewrite append_assoc; cbn [append]). reflexivity.
Qed.

Lemma long_lat_last (obj : longlat) :
  last_char (str float_repr (snd obj)) <> Some ";"%char ->
  last_char (long_lat float_repr obj) <> Some ";"%char /\
  long_lat float_repr obj <> "".
Proof.
  intro H. unfold long_lat. cbn [append]. split.
  - rewrite last_char_app. destruct (str float_repr (snd obj)) eqn:E.
    + discriminate.
    + exact H.
  - destruct (str float_repr (fst obj)); discriminate.
Qed.

Lemma rstrip_one (c : ascii) (s : string) :
  s <> "" -> last_char s <> Some c -> rstrip c (s ++ String c "") = s.
Proof.
  induction s as [|a s IH]; [congruence|]. intros _ Hlast.
  destruct s as [|b s'].
  - simpl. rewrite Ascii.eqb_refl.
    destruct (Ascii.eqb_spec a c) as [->|_]; [|reflexivity].
    exfalso. apply Hlast. reflexivity.
  - cbn [append]. cbn [append] in IH.
    rewrite rstrip_cons; rewrite IH; try discriminate; try exact Hlast.
    reflexivity.
Qed.

Lemma joined_nonempty (obj : longlat) (rest : list longlat) :
  long_lat float_repr obj <> "" ->
  String.concat ";" (map (long_lat float_repr) (obj :: rest)) <> "".
Proof.
  intro Hne. cbn [map String.concat].
  destruct (map (long_lat float_repr) rest); [exact Hne|].
  destruct (long_lat float_repr obj); [congruence | discriminate].
Qed.

(** Stripping the trailing semicolons leaves the pairs joined by [;]. *)
Lemma data_obj_joined (locations : list longlat) :
  Forall (fun obj => last_char (str float_repr (snd obj)) <> Some ";"%char)
         locations ->
  rstrip ";" (request_data float_repr locations) =
  String.concat ";" (map (long_lat float_repr) locations).
Proof.
  induction 1 as [|obj rest Hobj Hrest IH]; [reflexivity|].
  rewrite request_data_cons. destruct (long_lat_last obj Hobj) as [Hlast Hne].
  destruct rest as [|obj' rest'].
  - cbn [map String.concat]. change (request_data float_repr []) with "".
    now apply rstrip_one.
  - change (String.concat ";" (map (long_lat float_repr) (obj :: obj' :: rest')))
      with (long_lat float_repr obj ++
            String ";" (String.concat ";" (map (long_lat float_repr) (obj' :: rest')))).
    rewrite <- IH.
    assert (Hrest' : rstrip ";" (request_data float_repr (obj' :: rest')) <> "").
    { rewrite IH. inversion Hrest as [|? ? Hobj' _]; subst.
      apply joined_nonempty. apply long_lat_last, Hobj'. }
    rewrite rstrip_app.
    + f_equal. apply rstrip_cons, Hrest'.
    + rewrite rstrip_cons by exact Hrest'. discriminate.
Qed.

End RequestString.

(* ================================================================= *)
(** ** Reading the request string back *)

Section ReadBack.

Lemma contains_app (c : ascii) (a b : string) :
  contains c (a ++ b) = (contains c a || contains c b)%bool.
Proof.
  induction a as [|x a IH]; [reflexivity|].
  cbn [append contains]. rewrite IH. now rewrite orb_assoc.
Qed.

Lemma contains_last (c : ascii) (s : string) :
  contains c s = false -> last_char s <> Some c.
Proof.
  induction s as [|a s IH]; [discriminate|].
  cbn [contains]. intro H. apply orb_false_elim in H. destruct H as [Ha Hs].
  destruct s as [|b s'].
  - simpl. intros [= ->]. rewrite Ascii.eqb_refl in Ha. discriminate.
  - exact (IH Hs).
Qed.

Lemma split_clean (sep : ascii) (t : string) :
  contains sep t = false -> split sep t = [t].
Proof.
  induction t as [|a t IH]; [reflexivity|].
  cbn [contains split]. intro H. apply orb_false_elim in H. destruct H as [Ha Ht].
  rewrite Ha, (IH Ht). reflexivity.
Qed.

Lemma split_app (sep : ascii) (t rest : string) :
  contains sep t = false ->
  split sep (t ++ String sep rest) = t :: split sep rest.
Proof.
  induction t as [|a t IH].
  - intros _. cbn [append split]. now rewrite Ascii.eqb_refl.
  - cbn [contains append split]. intro H.
    apply orb_false_elim in H. destruct H as [Ha Ht].
    rewrite Ha, (IH Ht). reflexivity.
Qed.

Variable float_repr : spec_float -> string.
Variable parse_number : string -> option pynum.

Lemma parse_long_lat_str (obj : longlat) :
  readable_pair float_repr parse_number obj ->
  parse_long_lat parse_number (long_lat float_repr obj) = Some obj.
Proof.
  intros [(_ & Hlon & Plon) (_ & Hlat & Plat)].
  unfold parse_long_lat, long_lat. cbn [append].
  rewrite (split_app _ _ _ Hlon), (split_clean _ _ Hlat), Plon, Plat.
  now destruct obj.
Qed.

Lemma long_lat_clean (obj : longlat) :
  readable_pair float_repr parse_number obj -> contains ";" (long_lat float_repr obj) = false.
Proof.
  intros [(Hlon & _) (Hlat & _)]. unfold long_lat. cbn [append].
  rewrite contains_app. cbn [contains]. now rewrite Hlon, Hlat.
Qed.

Lemma parse_all_joined (obj : longlat) (rest : list longlat) :
  Forall (readable_pair float_repr parse_number) (obj :: rest) ->
  parse_all parse_number
    (split ";" (String.concat ";" (map (long_lat float_repr) (obj :: rest)))) =
  Some (obj :: rest).
Proof.
  revert obj. induction rest as [|obj' rest IH]; intros obj H;
    inversion H as [|? ? Hobj Hrest]; subst.
  - cbn [map String.concat].
    rewrite (split_clean _ _ (long_lat_clean obj Hobj)).
    cbn [parse_all]. now rewrite parse_long_lat_str.
  - change (String.concat ";" (map (long_lat float_repr) (obj :: obj' :: rest)))
      with (long_lat float_repr obj ++
            String ";" (String.concat ";" (map (long_lat float_repr) (obj' :: rest)))).
    rewrite (split_app _ _ _ (long_lat_clean obj Hobj)).
    cbn [parse_all]. rewrite (IH obj' Hrest), parse_long_lat_str by exact Hobj.
    reflexivity.
Qed.

End ReadBack.

(* ================================================================= *)
(** ** From an answered call to its result *)

Section Answered.

Variable float_repr : spec_float -> string.
Variable json_loads : string -> result json.
Variable server : http_request -> string.

Lemma many_to_one_outcome sources destination ds :
  many_to_one_durations float_repr json_loads server sources destination ds ->
  outcome server
    (get_travel_time_many_to_one float_repr json_loads sources destination) =
  pick sources destination ds.
Proof.
  intros (resp & Hresp & Hds). unfold outcome.
  rewrite many_to_one_run. cbn [snd]. rewrite Hresp. cbn [rbind].
  rewrite Hds. reflexivity.
Qed.

Lemma one_to_many_outcome source destinations ds :
  one_to_many_durations float_repr json_loads server source destinations ds ->
  outcome server
    (get_travel_time_one_to_many float_repr json_loads source destinations) =
  pick destinations source ds.
Proof.
  intros (resp & Hresp & Hds). unfold outcome.
  rewrite one_to_many_run. cbn [snd]. rewrite Hresp. cbn [rbind].
  rewrite Hds. reflexivity.
Qed.

Lemma one_to_one_outcome source destination d :
  one_to_one_duration float_repr json_loads server source destination d ->
  outcome server
    (get_travel_time_one_to_one float_repr json_loads source destination) =
  (travel_time <- py_truediv d (PyInt 3600) ;;
   Ok (travel_time, source, destination))%result.
Proof.
  intros (items & row & rows & Hresp & Hdur). unfold outcome.
  rewrite one_to_one_run. cbn [snd]. rewrite Hresp. cbn [rbind].
  unfold duration_entry, getitem_str. rewrite Hdur. reflexivity.
Qed.

End Answered.

Section PickFacts.

Lemma minimum_positive_of_nth (ds : list pynum) (i : nat) (d : pynum) :
  nth_error ds i = Some d -> candidate d = true ->
  (forall j d', nth_error ds j = Some d' ->
                py_lt (PyInt 0) d' = true -> py_lt d' d = false) ->
  minimum_positive ds d.
Proof.
  intros Hi Hc Hmin. unfold candidate in Hc. apply andb_prop in Hc.
  repeat split.
  - exact (nth_error_In _ _ Hi).
  - exact (proj1 Hc).
  - intros d' Hin Hpos. apply In_nth_error in Hin. destruct Hin as [j Hj].
    exact (Hmin j d' Hj Hpos).
Qed.

Lemma first_minimum_of_nth (ds : list pynum) (i : nat) (d : pynum) :
  nth_error ds i = Some d ->
  (forall j d', (j < i)%nat -> nth_error ds j = Some d' ->
                py_lt (PyInt 0) d' = true -> py_lt d d' = true) ->
  first_minimum ds i d.
Proof.
  intros Hi Hfirst. split; [exact Hi|]. intros j d' Hj Hpos Hnot.
  destruct (Nat.lt_ge_cases j i) as [L|G]; [|exact G].
  rewrite (Hfirst j d' L Hj Hpos) in Hnot. discriminate.
Qed.

(** What a scan that has a candidate returns. *)
Lemma pick_minimum (coords : list longlat) (fixed : longlat) (ds : list pynum) :
  (exists d, In d ds /\ candidate d = true) ->
  (List.length ds <= S (List.length coords))%nat ->
  coords <> [] ->
  exists i d t c,
    candidate d = true /\
    minimum_positive ds d /\ first_minimum ds i d /\
    py_truediv d (PyInt 3600) = Ok t /\
    list_getitem coords (Z.of_nat i - 1) = Ok c /\
    pick coords fixed ds = Ok (t, c, fixed).
Proof.
  intros Hex Hlen Hne.
  destruct (pick_candidate coords fixed ds Hex Hlen Hne)
    as (i & d & t & c & Hi & Hc & Hmin & Hfirst & Ht & Hcoord & Hpick).
  exists i, d, t, c. repeat split; try assumption.
  - exact (proj1 (minimum_positive_of_nth ds i d Hi Hc Hmin)).
  - exact (proj1 (proj2 (minimum_positive_of_nth ds i d Hi Hc Hmin))).
  - exact (proj2 (proj2 (minimum_positive_of_nth ds i d Hi Hc Hmin))).
  - exact (proj2 (first_minimum_of_nth ds i d Hi Hfirst)).
Qed.

(** What any scan that returns has selected. *)
Lemma pick_returned (coords : list longlat) (fixed : longlat) (ds : list pynum)
    (t : spec_float) (c o : longlat) :
  pick coords fixed ds = Ok (t, c, o) ->
  (scan ds 0 initial_state = initial_state /\ t = sentinel_hours /\
   list_getitem coords (-1) = Ok c)
  \/
  (exists i d,
      scan ds 0 initial_state = (d, Z.of_nat i - 1) /\
      nth_error ds i = Some d /\ py_lt (PyInt 0) d = true /\
      py_truediv d (PyInt 3600) = Ok t /\
      list_getitem coords (Z.of_nat i - 1) = Ok c).
Proof.
  unfold pick. intro H.
  destruct (scan_selected ds) as [[E _]|(i & d & Hi & Hc & E & _)];
    rewrite E in H |- *.
  - left. unfold initial_state in H. rewrite truediv_sentinel in H.
    cbn [rbind] in H. destruct (list_getitem coords (-1)) as [c'|e];
      [|discriminate]. cbn [rbind] in H. injection H as <- <- _.
    repeat split; reflexivity.
  - right. exists i, d.
    destruct (py_truediv d (PyInt 3600)) as [t'|e]; [|discriminate].
    cbn [rbind] in H.
    destruct (list_getitem coords (Z.of_nat i - 1)) as [c'|e]; [|discriminate].
    cbn [rbind] in H. injection H as <- <- _.
    unfold candidate in Hc. apply andb_prop in Hc.
    repeat split; try reflexivity; [exact Hi | exact (proj1 Hc)].
Qed.

End PickFacts.

(* ================================================================= *)
(** ** The mocked answers *)

Section Mocked.

Lemma column_durations (ds : list pynum) :
  duration_column (Sample.column ds) = Ok ds.
Proof.
  unfold duration_column, Sample.column, Sample.response. cbn [getitem_str].
  change (dict_lookup "durations" _)
    with (Some (JList (map (fun row => JList (map JNum row))
                           (map (fun d => [d]) ds)))).
  cbn [rbind py_iter]. induction ds as [|d ds IH]; [reflexivity|].
  cbn [map read_durations]. unfold first_of_row at 1. cbn.
  cbn in IH. rewrite IH. reflexivity.
Qed.

Lemma row_durations (ds : list pynum) :
  duration_row (Sample.row ds) = Ok ds.
Proof.
  unfold duration_row, Sample.row, Sample.response. cbn [getitem_str].
  change (dict_lookup "durations" _)
    with (Some (JList (map (fun row => JList (map JNum row)) [ds]))).
  cbn [rbind map]. change (getitem_int (JList [JList (map JNum ds)]) 0)
    with (Ok (A := json) (JList (map JNum ds))).
  cbn [rbind py_iter]. induction ds as [|d ds IH]; [reflexivity|].
  cbn [map read_durations]. unfold itself at 1. cbn [rbind as_number].
  rewrite IH. reflexivity.
Qed.

Lemma mocked_many_to_one answer sources destination ds :
  duration_column answer = Ok ds ->
  many_to_one_durations Sample.float_repr (Sample.json_loads answer)
    Sample.server sources destination ds.
Proof. intro H. exists answer. split; [reflexivity | exact H]. Qed.

Lemma mocked_one_to_many answer source destinations ds :
  duration_row answer = Ok ds ->
  one_to_many_durations Sample.float_repr (Sample.json_loads answer)
    Sample.server source destinations ds.
Proof. intro H. exists answer. split; [reflexivity | exact H]. Qed.

Lemma mocked_one_to_one source destination d :
  one_to_one_duration Sample.float_repr
    (Sample.json_loads (Sample.row [d])) Sample.server source destination d.
Proof.
  exists [("code", JStr "Ok"); ("durations", JList [JList [JNum d]])], [], [].
  split; reflexivity.
Qed.

End Mocked.

(* ================================================================= *)
(** ** MANY-TO-ONE and ONE-TO-MANY: the selected duration *)

Import Sample.

(** C1, as the code has it.  A many-to-one call answered with a column of
    numbers, one row per location at most, that holds a strictly positive
    duration below [sys.maxsize], returns the smallest strictly positive
    duration of the column divided by 3600, together with
    [sources[i - 1]] for the winning row index [i] and the destination.
    In particular, for sources [[A; B; C]] and the column
    [[0; 100; 50; 200]], whose row 0 is the destination itself, it returns
    [B] and [50 / 3600]. *)
Theorem many_to_one_minimum :
  (forall float_repr json_loads server sources destination ds,
      many_to_one_durations float_repr json_loads server sources destination ds ->
      (exists d, In d ds /\ candidate d = true) ->
      (List.length ds <= S (List.length sources))%nat ->
      sources <> [] ->
      exists i d t source,
        nth_error ds i = Some d /\ minimum_positive ds d /\
        py_truediv d (PyInt 3600) = Ok t /\
        list_getitem sources (Z.of_nat i - 1) = Ok source /\
        outcome server
          (get_travel_time_many_to_one float_repr json_loads sources destination) =
        Ok (t, source, destination))
  /\
  many_to_one (column [PyInt 0; PyInt 100; PyInt 50; PyInt 200]) [A; B; C] D =
  Ok (hours_50, B, D).
Proof.
  split; [|vm_compute; reflexivity].
  intros float_repr json_loads server sources destination ds Hds Hex Hlen Hne.
  destruct (pick_minimum sources destination ds Hex Hlen Hne)
    as (i & d & t & c & _ & Hmin & [Hi _] & Ht & Hc & Hpick).
  exists i, d, t, c. rewrite (many_to_one_outcome _ _ _ _ _ _ Hds).
  repeat split; try assumption; apply Hmin.
Qed.

Lemma many_to_one_minimum_witness :
  exists i d t source,
    nth_error [PyInt 0; PyInt 100; PyInt 50; PyInt 200] i = Some d /\
    minimum_positive [PyInt 0; PyInt 100; PyInt 50; PyInt 200] d /\
    py_truediv d (PyInt 3600) = Ok t /\
    list_getitem [A; B; C] (Z.of_nat i - 1) = Ok source /\
    many_to_one (column [PyInt 0; PyInt 100; PyInt 50; PyInt 200]) [A; B; C] D =
    Ok (t, source, D).
Proof.
  apply (proj1 many_to_one_minimum Sample.float_repr
           (Sample.json_loads (column [PyInt 0; PyInt 100; PyInt 50; PyInt 200]))
           Sample.server [A; B; C] D).
  - apply mocked_many_to_one, column_durations.
  - exists (PyInt 50). split; [simpl; auto | reflexivity].
  - simpl. lia.
  - discriminate.
Defined.

(** C1 as stated fails.  With the column [[100; 50; 200]] of the claim the
    winning row is row 1, and [sources[0]], that is [A], is returned, not
    [B].  And a strictly positive duration that is not below [sys.maxsize]
    is not selected: the sentinel and the last source come back. *)
Lemma many_to_one_claim_fails :
  many_to_one (column [PyInt 100; PyInt 50; PyInt 200]) [A; B; C] D =
  Ok (hours_50, A, D) /\
  ~ (exists t,
        many_to_one (column [PyInt 100; PyInt 50; PyInt 200]) [A; B; C] D =
        Ok (t, B, D)) /\
  minimum_positive [PyInt 0; PyInt (10 ^ 19)] (PyInt (10 ^ 19)) /\
  many_to_one (column [PyInt 0; PyInt (10 ^ 19)]) [A; B; C] D =
  Ok (sentinel_hours, C, D) /\
  py_truediv (PyInt (10 ^ 19)) (PyInt 3600) <> Ok sentinel_hours.
Proof.
  assert (E : many_to_one (column [PyInt 100; PyInt 50; PyInt 200]) [A; B; C] D =
              Ok (hours_50, A, D)) by (vm_compute; reflexivity).
  split; [exact E|]. split.
  - intros [t Ht]. rewrite E in Ht. discriminate.
  - split; [|split].
    + split; [simpl; auto | split; [reflexivity|]].
      intros d' [<-|[<-|[]]] Hpos; [discriminate Hpos | reflexivity].
    + vm_compute; reflexivity.
    + vm_compute. discriminate.
Qed.

(** C3, as the code has it.  A one-to-many call answered with a first row
    of numbers, one entry per location at most, whose entry 0 (the source
    itself) is not strictly positive and which holds a strictly positive
    duration below [sys.maxsize], returns the smallest strictly positive
    duration of the row divided by 3600; the coordinate returned is
    [destinations[i]] of the original list, where [i + 1] is the winning
    position in the row, that is the position of that destination in the
    combined request list. *)
Theorem one_to_many_minimum :
  forall float_repr json_loads server source destinations ds,
    one_to_many_durations float_repr json_loads server source destinations ds ->
    (exists d, In d ds /\ candidate d = true) ->
    (forall d0, nth_error ds 0 = Some d0 -> py_lt (PyInt 0) d0 = false) ->
    (List.length ds <= S (List.length destinations))%nat ->
    exists i d t destination,
      nth_error ds (S i) = Some d /\ minimum_positive ds d /\
      py_truediv d (PyInt 3600) = Ok t /\
      nth_error destinations i = Some destination /\
      nth_error (source :: destinations) (S i) = Some destination /\
      outcome server
        (get_travel_time_one_to_many float_repr json_loads source destinations) =
      Ok (t, destination, source).
Proof.
  intros float_repr json_loads server source destinations ds Hds Hex H0 Hlen.
  assert (Hne : destinations <> []).
  { destruct Hex as (d & Hin & Hc). apply In_nth_error in Hin.
    destruct Hin as [k Hk]. unfold candidate in Hc. apply andb_prop in Hc.
    destruct k as [|k]; [rewrite (H0 _ Hk) in Hc; destruct Hc; discriminate|].
    assert (S k < List.length ds)%nat by (apply nth_error_Some; congruence).
    intros ->. simpl in Hlen. lia. }
  destruct (pick_minimum destinations source ds Hex Hlen Hne)
    as (i & d & t & c & _ & Hmin & [Hi _] & Ht & Hc & Hpick).
  destruct i as [|i].
  { destruct Hmin as (_ & Hpos & _). rewrite (H0 _ Hi) in Hpos. discriminate. }
  replace (Z.of_nat (S i) - 1) with (Z.of_nat i) in Hc by lia.
  apply list_getitem_nonneg_inv in Hc.
  exists i, d, t, c. rewrite (one_to_many_outcome _ _ _ _ _ _ Hds).
  repeat split; try assumption; apply Hmin.
Qed.

Lemma one_to_many_minimum_witness :
  exists i d t destination,
    nth_error [PyInt 0; PyInt 100; PyInt 50; PyInt 200] (S i) = Some d /\
    minimum_positive [PyInt 0; PyInt 100; PyInt 50; PyInt 200] d /\
    py_truediv d (PyInt 3600) = Ok t /\
    nth_error [A; B; C] i = Some destination /\
    nth_error (D :: [A; B; C]) (S i) = Some destination /\
    one_to_many (row [PyInt 0; PyInt 100; PyInt 50; PyInt 200]) D [A; B; C] =
    Ok (t, destination, D).
Proof.
  apply (one_to_many_minimum Sample.float_repr
           (Sample.json_loads (row [PyInt 0; PyInt 100; PyInt 50; PyInt 200]))
           Sample.server D [A; B; C]).
  - apply mocked_one_to_many, row_durations.
  - exists (PyInt 50). split; [simpl; auto | reflexivity].
  - intros d0 [= <-]. reflexivity.
  - simpl. lia.
Defined.

(** C3 as stated fails.  A strictly positive duration that is not below
    [sys.maxsize] is not selected: the sentinel comes back, with the last
    destination instead of the one the duration belongs to.  And when the
    smallest strictly positive duration sits at position 0 of the row, the
    slot of the source itself, the last destination is returned, whose own
    duration is not the minimum. *)
Lemma one_to_many_claim_fails :
  minimum_positive [PyInt 0; PyInt (10 ^ 19); PyInt 0] (PyInt (10 ^ 19)) /\
  one_to_many (row [PyInt 0; PyInt (10 ^ 19); PyInt 0]) A [B; C] =
  Ok (sentinel_hours, C, A) /\
  py_truediv (PyInt (10 ^ 19)) (PyInt 3600) <> Ok sentinel_hours /\
  nth_error (A :: [B; C]) 1 <> Some C /\
  minimum_positive [PyInt 5; PyInt 10; PyInt 20] (PyInt 5) /\
  one_to_many (row [PyInt 5; PyInt 10; PyInt 20]) A [B; C] = Ok (hours_5, C, A) /\
  nth_error (A :: [B; C]) 0 <> Some C.
Proof.
  assert (Hmin : forall a b c d,
             In d [a; b; c] -> py_lt (PyInt 0) d = true ->
             (forall d', In d' [a; b; c] ->
                         py_lt (PyInt 0) d' = false \/ py_lt d' d = false) ->
             minimum_positive [a; b; c] d).
  { intros a b c d Hin Hpos Hall. split; [exact Hin | split; [exact Hpos|]].
    intros d' Hd' Hpos'. destruct (Hall d' Hd') as [H|H]; [congruence | exact H]. }
  split; [|split; [|split; [|split; [|split; [|split]]]]].
  - apply Hmin; [simpl; auto | reflexivity |].
    intros d' [<-|[<-|[<-|[]]]]; first [left; reflexivity | right; reflexivity].
  - vm_compute; reflexivity.
  - vm_compute; discriminate.
  - discriminate.
  - apply Hmin; [simpl; auto | reflexivity |].
    intros d' [<-|[<-|[<-|[]]]]; first [left; reflexivity | right; reflexivity].
  - vm_compute; reflexivity.
  - discriminate.
Qed.

(** A [null] duration (an unreachable pair) stops the scan with a
    [TypeError], whatever else the row holds. *)
Example null_duration_raises :
  outcome Sample.server
    (get_travel_time_one_to_many Sample.float_repr
       (Sample.json_loads
          (JDict [("durations",
                   JList [JList [JNum (PyInt 0); JNum (PyInt 100); JNull]])]))
       D [A; B]) =
  Err TypeError.
Proof. vm_compute. reflexivity. Qed.

(** C4.  In a many-to-one and in a one-to-many call that returns, the
    travel time either is the untouched sentinel or comes from a scanned
    duration, and that duration is strictly positive; a duration that is
    zero or negative is never the state the loop ends in. *)
Theorem selected_duration_positive :
  (forall float_repr json_loads server sources destination ds t c o,
      many_to_one_durations float_repr json_loads server sources destination ds ->
      outcome server
        (get_travel_time_many_to_one float_repr json_loads sources destination) =
      Ok (t, c, o) ->
      (scan ds 0 initial_state = initial_state /\ t = sentinel_hours) \/
      (exists i d,
          scan ds 0 initial_state = (d, Z.of_nat i - 1) /\
          nth_error ds i = Some d /\ py_lt (PyInt 0) d = true /\
          py_truediv d (PyInt 3600) = Ok t))
  /\
  (forall float_repr json_loads server source destinations ds t c o,
      one_to_many_durations float_repr json_loads server source destinations ds ->
      outcome server
        (get_travel_time_one_to_many float_repr json_loads source destinations) =
      Ok (t, c, o) ->
      (scan ds 0 initial_state = initial_state /\ t = sentinel_hours) \/
      (exists i d,
          scan ds 0 initial_state = (d, Z.of_nat i - 1) /\
          nth_error ds i = Some d /\ py_lt (PyInt 0) d = true /\
          py_truediv d (PyInt 3600) = Ok t))
  /\
  (forall ds i d,
      nth_error ds i = Some d -> py_lt (PyInt 0) d = false ->
      scan ds 0 initial_state <> (d, Z.of_nat i - 1)).
Proof.
  split; [|split].
  - intros float_repr json_loads server sources destination ds t c o Hds Hout.
    rewrite (many_to_one_outcome _ _ _ _ _ _ Hds) in Hout.
    destruct (pick_returned _ _ _ _ _ _ Hout)
      as [(E & Ht & _)|(i & d & E & Hi & Hpos & Ht & _)].
    + left. split; assumption.
    + right. exists i, d. repeat split; assumption.
  - intros float_repr json_loads server source destinations ds t c o Hds Hout.
    rewrite (one_to_many_outcome _ _ _ _ _ _ Hds) in Hout.
    destruct (pick_returned _ _ _ _ _ _ Hout)
      as [(E & Ht & _)|(i & d & E & Hi & Hpos & Ht & _)].
    + left. split; assumption.
    + right. exists i, d. repeat split; assumption.
  - intros ds i d Hi Hneg E.
    destruct (scan_selected ds) as [[E' _]|(k & d' & _ & Hc & E' & _)];
      rewrite E in E'.
    + injection E' as -> _. discriminate Hneg.
    + injection E' as <- _. unfold candidate in Hc. rewrite Hneg in Hc.
      discriminate.
Qed.

Lemma selected_duration_positive_witness :
  (scan [PyInt 0; PyInt (-3); PyInt 50] 0 initial_state = initial_state /\
   hours_50 = sentinel_hours) \/
  (exists i d,
      scan [PyInt 0; PyInt (-3); PyInt 50] 0 initial_state = (d, Z.of_nat i - 1) /\
      nth_error [PyInt 0; PyInt (-3); PyInt 50] i = Some d /\
      py_lt (PyInt 0) d = true /\
      py_truediv d (PyInt 3600) = Ok hours_50).
Proof.
  apply (proj1 selected_duration_positive Sample.float_repr
           (Sample.json_loads (column [PyInt 0; PyInt (-3); PyInt 50]))
           Sample.server [A; B] D [PyInt 0; PyInt (-3); PyInt 50] hours_50 B D).
  - apply mocked_many_to_one, column_durations.
  - vm_compute. reflexivity.
Defined.

(** C5, as the code has it.  A many-to-one or one-to-many call whose
    scanned entries are all numbers, none of them strictly positive, and
    whose coordinate list is not empty, leaves the loop in its initial
    state: the travel time is [sys.maxsize / 3600], and the original list
    is indexed with [-1], which is its last element. *)
Theorem nothing_positive_sentinel :
  (forall float_repr json_loads server sources destination ds init last,
      many_to_one_durations float_repr json_loads server sources destination ds ->
      (forall d, In d ds -> py_lt (PyInt 0) d = false) ->
      sources = (init ++ [last])%list ->
      scan ds 0 initial_state = (PyInt sys_maxsize, -1) /\
      py_truediv (PyInt sys_maxsize) (PyInt 3600) = Ok sentinel_hours /\
      list_getitem sources (-1) = Ok last /\
      outcome server
        (get_travel_time_many_to_one float_repr json_loads sources destination) =
      Ok (sentinel_hours, last, destination))
  /\
  (forall float_repr json_loads server source destinations ds init last,
      one_to_many_durations float_repr json_loads server source destinations ds ->
      (forall d, In d ds -> py_lt (PyInt 0) d = false) ->
      destinations = (init ++ [last])%list ->
      scan ds 0 initial_state = (PyInt sys_maxsize, -1) /\
      py_truediv (PyInt sys_maxsize) (PyInt 3600) = Ok sentinel_hours /\
      list_getitem destinations (-1) = Ok last /\
      outcome server
        (get_travel_time_one_to_many float_repr json_loads source destinations) =
      Ok (sentinel_hours, last, source)).
Proof.
  assert (Hscan : forall ds,
             (forall d, In d ds -> py_lt (PyInt 0) d = false) ->
             (forall d, In d ds -> candidate d = false) /\
             scan ds 0 initial_state = (PyInt sys_maxsize, -1)).
  { intros ds Hnone.
    assert (Hc : forall d, In d ds -> candidate d = false).
    { intros d Hd. unfold candidate. now rewrite (Hnone d Hd). }
    split; [exact Hc|].
    destruct (scan_selected ds) as [[E _]|(i & d & Hi & Hcd & _)]; [exact E|].
    apply nth_error_In in Hi. rewrite (Hc d Hi) in Hcd. discriminate. }
  split.
  - intros float_repr json_loads server sources destination ds init last
           Hds Hnone ->.
    destruct (Hscan ds Hnone) as [Hc E].
    rewrite (many_to_one_outcome _ _ _ _ _ _ Hds).
    split; [exact E|]. split; [exact truediv_sentinel|].
    split; [apply list_getitem_last|].
    now apply pick_nothing with (init := init).
  - intros float_repr json_loads server source destinations ds init last
           Hds Hnone ->.
    destruct (Hscan ds Hnone) as [Hc E].
    rewrite (one_to_many_outcome _ _ _ _ _ _ Hds).
    split; [exact E|]. split; [exact truediv_sentinel|].
    split; [apply list_getitem_last|].
    now apply pick_nothing with (init := init).
Qed.

Lemma nothing_positive_sentinel_witness :
  scan [PyInt 0; PyInt 0; PyInt (-4)] 0 initial_state = (PyInt sys_maxsize, -1) /\
  py_truediv (PyInt sys_maxsize) (PyInt 3600) = Ok sentinel_hours /\
  list_getitem [A; B; C] (-1) = Ok C /\
  many_to_one (column [PyInt 0; PyInt 0; PyInt (-4)]) [A; B; C] D =
  Ok (sentinel_hours, C, D).
Proof.
  apply (proj1 nothing_positive_sentinel Sample.float_repr
           (Sample.json_loads (column [PyInt 0; PyInt 0; PyInt (-4)]))
           Sample.server [A; B; C] D [PyInt 0; PyInt 0; PyInt (-4)] [A; B] C).
  - apply mocked_many_to_one, column_durations.
  - intros d [<-|[<-|[<-|[]]]]; reflexivity.
  - reflexivity.
Defined.

(** C5 as stated fails.  An answer can hold no strictly positive duration
    and still not give the sentinel: a [null] among the scanned entries
    raises [TypeError] at the comparison, one-to-many raises [IndexError]
    on an empty matrix, and an empty coordinate list has no last
    element. *)
Lemma nothing_positive_claim_fails :
  outcome Sample.server
    (get_travel_time_many_to_one Sample.float_repr
       (Sample.json_loads
          (JDict [("durations", JList [JList [JNum (PyInt 0)]; JList [JNull]])]))
       [A; B] D) =
  Err TypeError /\
  outcome Sample.server
    (get_travel_time_one_to_many Sample.float_repr
       (Sample.json_loads
          (JDict [("durations", JList [JList [JNum (PyInt 0); JNull]])]))
       D [A; B]) =
  Err TypeError /\
  one_to_many (response []) D [A; B] = Err IndexError /\
  many_to_one (column [PyInt 0]) [] D = Err IndexError.
Proof. repeat split; vm_compute; reflexivity. Qed.

(** C9, as the code has it.  When the scanned durations of a many-to-one
    or one-to-many call are numbers, one per location at most, and the
    smallest strictly positive one is below [sys.maxsize], the call
    selects that minimum at the lowest index holding it: the selected
    duration is the smallest strictly positive one, and every strictly
    positive duration that is not above it (every tie) sits at the
    winning index or after it. *)
Theorem ties_select_lowest_index :
  (forall float_repr json_loads server sources destination ds,
      many_to_one_durations float_repr json_loads server sources destination ds ->
      (exists d, In d ds /\ candidate d = true) ->
      (List.length ds <= S (List.length sources))%nat ->
      sources <> [] ->
      exists i d t source,
        minimum_positive ds d /\
        first_minimum ds i d /\
        py_truediv d (PyInt 3600) = Ok t /\
        list_getitem sources (Z.of_nat i - 1) = Ok source /\
        outcome server
          (get_travel_time_many_to_one float_repr json_loads sources destination) =
        Ok (t, source, destination))
  /\
  (forall float_repr json_loads server source destinations ds,
      one_to_many_durations float_repr json_loads server source destinations ds ->
      (exists d, In d ds /\ candidate d = true) ->
      (List.length ds <= S (List.length destinations))%nat ->
      destinations <> [] ->
      exists i d t destination,
        minimum_positive ds d /\
        first_minimum ds i d /\
        py_truediv d (PyInt 3600) = Ok t /\
        list_getitem destinations (Z.of_nat i - 1) = Ok destination /\
        outcome server
          (get_travel_time_one_to_many float_repr json_loads source destinations) =
        Ok (t, destination, source)).
Proof.
  split.
  - intros float_repr json_loads server sources destination ds Hds Hex Hlen Hne.
    destruct (pick_minimum sources destination ds Hex Hlen Hne)
      as (i & d & t & c & _ & Hmin & Hfirst & Ht & Hc & Hpick).
    exists i, d, t, c. rewrite (many_to_one_outcome _ _ _ _ _ _ Hds).
    split; [exact Hmin|]. split; [exact Hfirst|]. split; [exact Ht|].
    split; [exact Hc | exact Hpick].
  - intros float_repr json_loads server source destinations ds Hds Hex Hlen Hne.
    destruct (pick_minimum destinations source ds Hex Hlen Hne)
      as (i & d & t & c & _ & Hmin & Hfirst & Ht & Hc & Hpick).
    exists i, d, t, c. rewrite (one_to_many_outcome _ _ _ _ _ _ Hds).
    split; [exact Hmin|]. split; [exact Hfirst|]. split; [exact Ht|].
    split; [exact Hc | exact Hpick].
Qed.

Lemma ties_select_lowest_index_witness :
  exists i d t destination,
    minimum_positive [PyInt 0; PyInt 70; PyInt 50; PyFloat (SF_of_Z 50)] d /\
    first_minimum [PyInt 0; PyInt 70; PyInt 50; PyFloat (SF_of_Z 50)] i d /\
    py_truediv d (PyInt 3600) = Ok t /\
    list_getitem [A; B; C] (Z.of_nat i - 1) = Ok destination /\
    one_to_many (row [PyInt 0; PyInt 70; PyInt 50; PyFloat (SF_of_Z 50)])
      D [A; B; C] =
    Ok (t, destination, D).
Proof.
  apply (proj2 ties_select_lowest_index Sample.float_repr
           (Sample.json_loads
              (row [PyInt 0; PyInt 70; PyInt 50; PyFloat (SF_of_Z 50)]))
           Sample.server D [A; B; C]).
  - apply mocked_one_to_many, row_durations.
  - exists (PyInt 50). split; [simpl; auto | reflexivity].
  - simpl. lia.
  - discriminate.
Defined.

(** C9 as stated fails.  Two scanned durations share the smallest
    strictly positive value [10 ^ 19], first at index 1, but the value is
    not below [sys.maxsize]: neither is selected, and the sentinel comes
    back with the last coordinate [C] instead of [A], the coordinate of
    index 1. *)
Lemma ties_claim_fails :
  minimum_positive [PyInt 0; PyInt (10 ^ 19); PyInt (10 ^ 19)] (PyInt (10 ^ 19)) /\
  first_minimum [PyInt 0; PyInt (10 ^ 19); PyInt (10 ^ 19)] 1 (PyInt (10 ^ 19)) /\
  list_getitem [A; B; C] (Z.of_nat 1 - 1) = Ok A /\
  many_to_one (column [PyInt 0; PyInt (10 ^ 19); PyInt (10 ^ 19)]) [A; B; C] D =
  Ok (sentinel_hours, C, D) /\
  one_to_many (row [PyInt 0; PyInt (10 ^ 19); PyInt (10 ^ 19)]) D [A; B; C] =
  Ok (sentinel_hours, C, D) /\
  C <> A /\
  py_truediv (PyInt (10 ^ 19)) (PyInt 3600) <> Ok sentinel_hours.
Proof.
  split; [|split; [|split; [|split; [|split; [|split]]]]].
  - split; [simpl; auto | split; [reflexivity|]].
    intros d' [<-|[<-|[<-|[]]]] Hpos; [discriminate Hpos | reflexivity | reflexivity].
  - split; [reflexivity|]. intros j d' Hj Hpos _.
    destruct j as [|j]; [|lia].
    injection Hj as <-. discriminate Hpos.
  - reflexivity.
  - vm_compute. reflexivity.
  - vm_compute. reflexivity.
  - discriminate.
  - vm_compute. discriminate.
Qed.

(** The tie of the sample above: [50] at index 2 and [50.0] at index 3;
    index 2 wins and [B] is returned. *)
Example tie_sample :
  one_to_many (row [PyInt 0; PyInt 70; PyInt 50; PyFloat (SF_of_Z 50)])
    D [A; B; C] = Ok (hours_50, B, D).
Proof. vm_compute. reflexivity. Qed.

(* ================================================================= *)
(** ** Int coordinates: their strings are clean and read back *)

Section IntStrings.

Lemma uint_string_clean (d : Decimal.uint) :
  contains ";" (NilEmpty.string_of_uint d) = false /\
  contains "," (NilEmpty.string_of_uint d) = false.
Proof. induction d; simpl; assumption || (split; reflexivity). Qed.

Lemma str_int_clean (z : Z) :
  contains ";" (str_int z) = false /\ contains "," (str_int z) = false.
Proof.
  unfold str_int, NilZero.string_of_int, NilZero.string_of_uint.
  destruct (Z.to_int z) as [d|d]; destruct d; try (split; reflexivity);
    simpl; apply uint_string_clean.
Qed.

Lemma to_int_not_nil (z : Z) :
  Z.to_int z <> Decimal.Pos Decimal.Nil /\ Z.to_int z <> Decimal.Neg Decimal.Nil.
Proof.
  destruct z as [|p|p]; simpl; split; try discriminate;
    intros [= H]; exact (DecimalPos.Unsigned.to_uint_nonnil p H).
Qed.

Lemma parse_int_str (z : Z) : parse_int (str_int z) = Some z.
Proof.
  unfold parse_int, str_int. destruct (to_int_not_nil z) as [Hp Hn].
  rewrite (NilZero.isi _ Hp Hn). simpl. now rewrite DecimalZ.of_to.
Qed.

(** Whatever the printer and the reader of floats are, an int reads back. *)
Lemma int_readable float_repr parse_float (z : Z) :
  readable float_repr (parse_number_with parse_float) (PyInt z).
Proof.
  unfold readable, parse_number_with. cbn [str].
  destruct (str_int_clean z) as [H1 H2].
  rewrite H1, H2, parse_int_str. repeat split.
Qed.

End IntStrings.

(* ================================================================= *)
(** ** ONE-TO-ONE *)

(** C2.  A one-to-one call answered with a matrix whose entry at row 0,
    column 0 is a number returns that entry divided by 3600, with the
    source and the destination it was given; for [durations = [[1800]]]
    the travel time is [0.5]. *)
Theorem one_to_one_entry :
  (forall float_repr json_loads server source destination d t,
      one_to_one_duration float_repr json_loads server source destination d ->
      py_truediv d (PyInt 3600) = Ok t ->
      outcome server
        (get_travel_time_one_to_one float_repr json_loads source destination) =
      Ok (t, source, destination))
  /\
  one_to_one (row [PyInt 1800]) stockholm uppsala = Ok (half, stockholm, uppsala).
Proof.
  split; [|vm_compute; reflexivity].
  intros float_repr json_loads server source destination d t Hd Ht.
  rewrite (one_to_one_outcome _ _ _ _ _ _ Hd), Ht. reflexivity.
Qed.

Lemma one_to_one_entry_witness :
  py_truediv (PyInt 1800) (PyInt 3600) = Ok half /\
  one_to_one (row [PyInt 1800]) stockholm uppsala = Ok (half, stockholm, uppsala).
Proof.
  split; [reflexivity|].
  apply (proj1 one_to_one_entry Sample.float_repr
           (Sample.json_loads (row [PyInt 1800])) Sample.server
           stockholm uppsala (PyInt 1800) half).
  - apply mocked_one_to_one.
  - reflexivity.
Defined.

(** C10.  The one-to-one call filters nothing: whatever number sits at
    row 0, column 0, zero and negative ones included, that number divided
    by 3600 is the travel time.  The scanning calls answered with the same
    single duration, when it is not strictly positive, return the sentinel
    instead. *)
Theorem one_to_one_unfiltered :
  forall float_repr json_loads server source destination d t,
    one_to_one_duration float_repr json_loads server source destination d ->
    py_truediv d (PyInt 3600) = Ok t ->
    outcome server
      (get_travel_time_one_to_one float_repr json_loads source destination) =
    Ok (t, source, destination)
    /\
    (py_lt (PyInt 0) d = false ->
     (forall server' init last,
         many_to_one_durations float_repr json_loads server'
           (init ++ [last])%list destination [d] ->
         outcome server'
           (get_travel_time_many_to_one float_repr json_loads
              (init ++ [last])%list destination) =
         Ok (sentinel_hours, last, destination)) /\
     (forall server' init last,
         one_to_many_durations float_repr json_loads server'
           source (init ++ [last])%list [d] ->
         outcome server'
           (get_travel_time_one_to_many float_repr json_loads
              source (init ++ [last])%list) =
         Ok (sentinel_hours, last, source))).
Proof.
  intros float_repr json_loads server source destination d t Hd Ht. split.
  - rewrite (one_to_one_outcome _ _ _ _ _ _ Hd), Ht. reflexivity.
  - intro Hneg.
    assert (Hnone : forall d', In d' [d] -> candidate d' = false).
    { intros d' [<-|[]]. unfold candidate. now rewrite Hneg. }
    split; intros server' init last Hds.
    + rewrite (many_to_one_outcome _ _ _ _ _ _ Hds).
      now apply pick_nothing with (init := init).
    + rewrite (one_to_many_outcome _ _ _ _ _ _ Hds).
      now apply pick_nothing with (init := init).
Qed.

Lemma one_to_one_unfiltered_witness :
  py_truediv (PyInt (-1800)) (PyInt 3600) = Ok (SFopp half) /\
  one_to_one (row [PyInt (-1800)]) stockholm uppsala =
  Ok (SFopp half, stockholm, uppsala).
Proof.
  split; [reflexivity|].
  apply (one_to_one_unfiltered Sample.float_repr
           (Sample.json_loads (row [PyInt (-1800)])) Sample.server
           stockholm uppsala (PyInt (-1800)) (SFopp half)).
  - apply mocked_one_to_one.
  - reflexivity.
Defined.

(** The same answers [[[0]]] and [[[-1800]]] given to the three calls. *)
Example zero_duration_sample :
  one_to_one (row [PyInt 0]) A D = Ok (S754_zero false, A, D) /\
  many_to_one (column [PyInt 0]) [A] D = Ok (sentinel_hours, A, D) /\
  one_to_many (row [PyInt 0]) A [D] = Ok (sentinel_hours, D, A).
Proof. repeat split; vm_compute; reflexivity. Qed.

(* ================================================================= *)
(** ** The request *)

Section RequestFacts.

Variable float_repr : spec_float -> string.

Lemma joined_last (locations : list longlat) :
  locations <> [] ->
  Forall (no_trailing_semicolon float_repr) locations ->
  last_char (joined float_repr locations) <> Some ";"%char /\
  joined float_repr locations <> "".
Proof.
  intros Hne H. induction H as [|obj rest Hobj Hrest IH]; [congruence|].
  destruct (long_lat_last float_repr obj Hobj) as [Hlast Hnonempty].
  destruct rest as [|obj' rest'].
  - split; assumption.
  - assert (Hrest' : obj' :: rest' <> []) by discriminate.
    destruct (IH Hrest') as [IHlast IHne].
    change (joined float_repr (obj :: obj' :: rest'))
      with (long_lat float_repr obj ++
            String ";" (joined float_repr (obj' :: rest'))).
    split.
    + rewrite last_char_app.
      destruct (joined float_repr (obj' :: rest')) eqn:E; [congruence|].
      exact IHlast.
    + destruct (long_lat float_repr obj); discriminate.
Qed.

Lemma request_url_joined (locations : list longlat) (ending_url : string) :
  Forall (no_trailing_semicolon float_repr) locations ->
  request_url float_repr locations ending_url =
  url ++ joined float_repr locations ++ ending_url.
Proof.
  intro H. unfold request_url. now rewrite (data_obj_joined float_repr locations H).
Qed.

End RequestFacts.

(** C7.  Each of the three methods sends exactly one request.  Its URL is
    the base URL, then the combined location list as [longitude,latitude]
    pairs joined by [;] with no separator after the last pair, then
    [?destinations=0] (many-to-one), [?sources=0] (one-to-many) or
    [?sources=0&destinations=1] (one-to-one), each followed by
    [&skip_waypoints=true]. *)
Theorem request_urls :
  forall float_repr json_loads server,
    (forall sources destination,
        Forall (no_trailing_semicolon float_repr) (destination :: sources) ->
        requests_sent server
          (get_travel_time_many_to_one float_repr json_loads sources destination) =
        [mk_request
           (url ++ joined float_repr (destination :: sources) ++
            "?destinations=0&skip_waypoints=true") None])
    /\
    (forall source destinations,
        Forall (no_trailing_semicolon float_repr) (source :: destinations) ->
        requests_sent server
          (get_travel_time_one_to_many float_repr json_loads source destinations) =
        [mk_request
           (url ++ joined float_repr (source :: destinations) ++
            "?sources=0&skip_waypoints=true") None])
    /\
    (forall source destination,
        Forall (no_trailing_semicolon float_repr) [source; destination] ->
        requests_sent server
          (get_travel_time_one_to_one float_repr json_loads source destination) =
        [mk_request
           (url ++ joined float_repr [source; destination] ++
            "?sources=0&destinations=1&skip_waypoints=true") None])
    /\
    (forall locations,
        locations <> [] ->
        Forall (no_trailing_semicolon float_repr) locations ->
        last_char (joined float_repr locations) <> Some ";"%char).
Proof.
  intros float_repr json_loads server. split; [|split; [|split]].
  - intros sources destination H. unfold requests_sent.
    rewrite many_to_one_run. cbn [fst]. unfold many_to_one_request.
    now rewrite request_url_joined.
  - intros source destinations H. unfold requests_sent.
    rewrite one_to_many_run. cbn [fst]. unfold one_to_many_request.
    now rewrite request_url_joined.
  - intros source destination H. unfold requests_sent.
    rewrite one_to_one_run. cbn [fst]. unfold one_to_one_request.
    now rewrite request_url_joined.
  - intros locations Hne H. now apply joined_last.
Qed.

Lemma request_urls_witness :
  requests_sent Sample.server
    (get_travel_time_one_to_one Sample.float_repr
       (Sample.json_loads (row [PyInt 1800])) stockholm uppsala) =
  [mk_request
     (url ++ joined Sample.float_repr [stockholm; uppsala] ++
      "?sources=0&destinations=1&skip_waypoints=true") None].
Proof.
  apply (proj1 (proj2 (proj2
           (request_urls Sample.float_repr
              (Sample.json_loads (row [PyInt 1800])) Sample.server)))).
  repeat constructor; discriminate.
Defined.

(** The URLs of three sample calls, in full. *)
Example url_samples :
  requests_sent Sample.server
    (get_travel_time_one_to_one Sample.float_repr
       (Sample.json_loads (row [PyInt 1800])) stockholm uppsala) =
  [mk_request
     "http://127.0.0.1:5001/table/v1/driving/18.0686,59.3293;17.6389,59.8586?sources=0&destinations=1&skip_waypoints=true"
     None] /\
  requests_sent Sample.server
    (get_travel_time_many_to_one Sample.float_repr
       (Sample.json_loads (column [PyInt 0; PyInt 100; PyInt 50; PyInt 200]))
       [A; B; C] D) =
  [mk_request
     "http://127.0.0.1:5001/table/v1/driving/0,-7;1,1;2,2;3,3?destinations=0&skip_waypoints=true"
     None] /\
  requests_sent Sample.server
    (get_travel_time_one_to_many Sample.float_repr
       (Sample.json_loads (row [PyInt 0; PyInt 100; PyInt 50; PyInt 200]))
       D [A; B; C]) =
  [mk_request
     "http://127.0.0.1:5001/table/v1/driving/0,-7;1,1;2,2;3,3?sources=0&skip_waypoints=true"
     None].
Proof. repeat split; vm_compute; reflexivity. Qed.

(** C8, against the code.  The class defines [headers] with
    [Content-Type: application/json], but none of the three methods passes
    it to [requests.get]: every request goes out without a [headers]
    argument. *)
Theorem content_type_not_sent :
  forall float_repr json_loads server,
    headers = [("Content-Type", "application/json")] /\
    (forall sources destination,
        map req_headers
          (requests_sent server
             (get_travel_time_many_to_one float_repr json_loads sources destination)) =
        [None]) /\
    (forall source destinations,
        map req_headers
          (requests_sent server
             (get_travel_time_one_to_many float_repr json_loads source destinations)) =
        [None]) /\
    (forall source destination,
        map req_headers
          (requests_sent server
             (get_travel_time_one_to_one float_repr json_loads source destination)) =
        [None]).
Proof.
  intros float_repr json_loads server. split; [reflexivity|].
  split; [|split]; intros; unfold requests_sent.
  - now rewrite many_to_one_run.
  - now rewrite one_to_many_run.
  - now rewrite one_to_one_run.
Qed.

(* ================================================================= *)
(** ** Round trip of the request string *)

Lemma read_back float_repr parse_number (locations : list longlat) :
  Forall (readable_pair float_repr parse_number) locations ->
  parse_request_data parse_number
    (rstrip ";" (request_data float_repr locations)) =
  Some locations.
Proof.
  intro H.
  assert (Hlast : Forall (fun obj =>
             last_char (str float_repr (snd obj)) <> Some ";"%char) locations).
  { eapply Forall_impl; [|exact H]. intros obj [_ (Hsemi & _)].
    now apply contains_last. }
  rewrite (data_obj_joined float_repr locations Hlast).
  destruct locations as [|obj rest]; [reflexivity|].
  inversion Hlast as [|? ? Hobj _]; subst.
  pose proof (joined_nonempty float_repr obj rest
                (proj2 (long_lat_last float_repr obj Hobj))) as Hne.
  unfold parse_request_data.
  destruct (String.concat ";" (map (long_lat float_repr) (obj :: rest))) eqn:E;
    [congruence|].
  rewrite <- E. now apply parse_all_joined.
Qed.

(** Lists of int coordinates need no assumption. *)
Lemma int_coordinates_read_back :
  forall float_repr parse_float (points : list (Z * Z)),
    let locations := map (fun p => (PyInt (fst p), PyInt (snd p))) points in
    parse_request_data (parse_number_with parse_float)
      (rstrip ";" (request_data float_repr locations)) =
    Some locations.
Proof.
  intros float_repr parse_float points locations.
  apply read_back. unfold locations.
  induction points as [|p points IH]; constructor; [|exact IH].
  split; apply int_readable.
Qed.

(** C6.  Writing a coordinate list to the request string and reading the
    string back, pair by pair, gives the list again, for every list whose
    numbers print without a separator character and read back from what
    they print as. *)
Theorem request_string_reads_back :
  forall float_repr parse_number locations,
    Forall (readable_pair float_repr parse_number) locations ->
    parse_request_data parse_number
      (rstrip ";" (request_data float_repr locations)) =
    Some locations.
Proof. exact read_back. Qed.

Lemma request_string_reads_back_witness :
  Forall (readable_pair Sample.float_repr Sample.parse_number)
         [stockholm; D; uppsala] /\
  parse_request_data Sample.parse_number
    (rstrip ";" (request_data Sample.float_repr [stockholm; D; uppsala])) =
  Some [stockholm; D; uppsala].
Proof.
  assert (H : Forall (readable_pair Sample.float_repr Sample.parse_number)
                     [stockholm; D; uppsala]).
  { repeat constructor; vm_compute; reflexivity. }
  split; [exact H|].
  exact (request_string_reads_back Sample.float_repr Sample.parse_number
           [stockholm; D; uppsala] H).
Defined.

(* ================================================================= *)
(** ** Failures of the lookup and signs of the quotient *)

Section LookupFailures.

Context {A : Type}.

Lemma list_getitem_In (l : list A) (i : Z) (x : A) :
  list_getitem l i = Ok x -> In x l.
Proof.
  unfold list_getitem.
  destruct ((0 <=? (if i <? 0 then i + Z.of_nat (List.length l) else i)) &&
            ((if i <? 0 then i + Z.of_nat (List.length l) else i) <?
             Z.of_nat (List.length l)))%bool; [|discriminate].
  destruct (nth_error l _) as [y|] eqn:E; [|discriminate].
  intros [= <-]. exact (nth_error_In _ _ E).
Qed.

Lemma list_getitem_nil (i : Z) : list_getitem (@nil A) i = Err IndexError.
Proof.
  unfold list_getitem. cbn [List.length Z.of_nat].
  destruct (i <? 0) eqn:E.
  - replace (0 <=? i + 0) with false; [reflexivity|].
    symmetry. apply Z.leb_gt. apply Z.ltb_lt in E. lia.
  - replace (i <? 0) with false by (symmetry; exact E).
    now rewrite andb_false_r.
Qed.

Lemma list_getitem_beyond (l : list A) (k : nat) :
  (List.length l <= k)%nat -> list_getitem l (Z.of_nat k) = Err IndexError.
Proof.
  intro H. unfold list_getitem.
  destruct (Z.of_nat k <? 0) eqn:E; [apply Z.ltb_lt in E; lia|].
  replace (Z.of_nat k <? Z.of_nat (List.length l)) with false.
  - now rewrite andb_false_r.
  - symmetry. apply Z.ltb_ge. lia.
Qed.

End LookupFailures.

Section QuotientSign.

Lemma binary_round_aux_sign (mx ex : Z) (lx : location) :
  0 <= mx -> sign_clear (binary_round_aux 53 1024 false mx ex lx) = true.
Proof.
  intro Hm. unfold binary_round_aux.
  pose proof (shr_fexp_bound mx ex lx Hm) as [H1 _].
  destruct (shr_fexp 53 1024 mx ex lx) as [r1 e1]. simpl in H1.
  pose proof (round_nearest_even_bound (shr_m r1) (loc_of_shr_record r1)) as Hr.
  set (m1 := round_nearest_even (shr_m r1) (loc_of_shr_record r1)) in *.
  assert (Hm1 : 0 <= m1) by lia.
  pose proof (shr_fexp_bound m1 e1 loc_Exact Hm1) as [H2 _].
  destruct (shr_fexp 53 1024 m1 e1 loc_Exact) as [r2 e2]. simpl in H2.
  destruct (shr_m r2) as [|p|p]; [reflexivity | | lia].
  destruct (e2 <=? 1024 - 53); reflexivity.
Qed.

Lemma div_core_nonneg (m1 m2 : positive) (e1 e2 : Z) :
  let '(q, _, _) := SFdiv_core_binary 53 1024 (Zpos m1) e1 (Zpos m2) e2 in
  0 <= q.
Proof.
  unfold SFdiv_core_binary.
  set (e := Z.min _ _).
  set (m := match e1 - e2 - e with
            | 0 => Zpos m1
            | Zpos _ => Z.shiftl (Zpos m1) (e1 - e2 - e)
            | Zneg _ => 0
            end).
  assert (Hm : 0 <= m).
  { unfold m. destruct (e1 - e2 - e); [lia | | lia].
    apply Z.shiftl_nonneg. lia. }
  pose proof (Z_div_mod m (Zpos m2) eq_refl) as Hdiv.
  destruct (Z.div_eucl m (Zpos m2)) as [q r]. nia.
Qed.

Lemma binary64_div_sign (m1 m2 : positive) (e1 e2 : Z) :
  sign_clear (binary64_div (S754_finite false m1 e1) (S754_finite false m2 e2)) = true.
Proof.
  unfold binary64_div, SFdiv.
  pose proof (div_core_nonneg m1 m2 e1 e2) as H.
  destruct (SFdiv_core_binary 53 1024 (Zpos m1) e1 (Zpos m2) e2) as [[q e] l].
  cbn [xorb]. now apply binary_round_aux_sign.
Qed.

Lemma finite_value_positive (m : positive) (e : Z) :
  (0 < inject_Z (Zpos m) * (2 # 1) ^ e)%Q.
Proof.
  apply Qmult_lt_0_compat.
  - unfold Qlt. simpl. lia.
  - apply Qpower_0_lt. reflexivity.
Qed.

Lemma positive_float (f : spec_float) :
  py_lt (PyInt 0) (PyFloat f) = true ->
  f = S754_infinity false \/ exists m e, f = S754_finite false m e.
Proof.
  unfold py_lt. destruct f as [s|s| |s m e]; cbn [value SF2X xlt].
  - intro H. apply Qlt_bool_iff in H. discriminate H.
  - destruct s; [discriminate | now left].
  - discriminate.
  - destruct s; [|right; now exists m, e].
    intro H. apply Qlt_bool_iff in H. exfalso.
    pose proof (finite_value_positive m e) as Hpos.
    apply Qopp_lt_compat in Hpos.
    exact (Qlt_irrefl _ (Qlt_trans _ _ _ H Hpos)).
Qed.

(** The quotient of a strictly positive duration has a clear sign. *)
Lemma truediv_positive_sign (d : pynum) (t : spec_float) :
  py_lt (PyInt 0) d = true ->
  py_truediv d (PyInt 3600) = Ok t ->
  sign_clear t = true.
Proof.
  intros Hpos Ht. destruct d as [z|f].
  - apply py_lt_int in Hpos. destruct z as [|p|p]; try lia.
    unfold py_truediv in Ht. change (3600 =? 0) with false in Ht. cbv iota in Ht.
    pose proof (binary64_div_sign p 3600 0 0) as Hs.
    change (SF_of_Z (Zpos p)) with (S754_finite false p 0) in Ht.
    change (SF_of_Z 3600) with (S754_finite false 3600 0) in Ht.
    destruct (binary64_div (S754_finite false p 0) (S754_finite false 3600 0));
      try discriminate; injection Ht as <-; exact Hs.
  - rewrite truediv_float_3600 in Ht. injection Ht as <-.
    destruct (positive_float f Hpos) as [->|(m & e & ->)].
    + reflexivity.
    + apply binary64_div_sign.
Qed.

Lemma candidate_value (d : pynum) :
  candidate d = true ->
  exists q, value d = XFin q /\
            (0 < q)%Q /\ (q < inject_Z sys_maxsize)%Q.
Proof.
  unfold candidate, py_lt. intro H. apply andb_prop in H. destruct H as [H0 H1].
  cbn [value] in H0, H1. destruct (value d) as [| |q|]; try discriminate.
  exists q. cbn [xlt] in H0, H1.
  apply Qlt_bool_iff in H0. apply Qlt_bool_iff in H1. repeat split; assumption.
Qed.

End QuotientSign.

(* ================================================================= *)
(** ** How the calls fail *)

Section PickFailures.

Lemma list_getitem_error {A : Type} (l : list A) (i : Z) (e : pyerr) :
  list_getitem l i = Err e -> e = IndexError.
Proof.
  unfold list_getitem.
  destruct (_ && _)%bool; [|congruence].
  destruct (nth_error l _); [discriminate | congruence].
Qed.

(** The division after the loop never fails. *)
Lemma scan_division_defined (ds : list pynum) :
  exists t, py_truediv (fst (scan ds 0 initial_state)) (PyInt 3600) = Ok t.
Proof.
  destruct (scan_selected ds) as [[-> _]|(i & d & _ & Hc & -> & _)].
  - exists sentinel_hours. exact truediv_sentinel.
  - exact (truediv_candidate d Hc).
Qed.

Lemma pick_error (coords : list longlat) (fixed : longlat) (ds : list pynum)
    (e : pyerr) :
  pick coords fixed ds = Err e -> e = IndexError.
Proof.
  unfold pick. destruct (scan_division_defined ds) as [t Ht].
  destruct (scan ds 0 initial_state) as [tt si]. cbn [fst] in Ht.
  rewrite Ht. cbn [rbind].
  destruct (list_getitem coords si) eqn:E; [discriminate|].
  cbn [rbind]. intros [= <-]. exact (list_getitem_error _ _ _ E).
Qed.

Lemma pick_nil (fixed : longlat) (ds : list pynum) :
  pick [] fixed ds = Err IndexError.
Proof.
  unfold pick. destruct (scan_division_defined ds) as [t Ht].
  destruct (scan ds 0 initial_state) as [tt si]. cbn [fst] in Ht.
  rewrite Ht. cbn [rbind]. now rewrite list_getitem_nil.
Qed.

Lemma pick_coordinates (coords : list longlat) (fixed : longlat)
    (ds : list pynum) (t : spec_float) (c o : longlat) :
  pick coords fixed ds = Ok (t, c, o) -> In c coords /\ o = fixed.
Proof.
  unfold pick. destruct (scan ds 0 initial_state) as [tt si].
  destruct (py_truediv tt (PyInt 3600)); [|discriminate]. cbn [rbind].
  destruct (list_getitem coords si) eqn:E; [|discriminate]. cbn [rbind].
  intros [= _ <- <-]. split; [exact (list_getitem_In _ _ _ E) | reflexivity].
Qed.

End PickFailures.

(** X1.  An answer that is an object without a [durations] field (as the
    error answers of the table service are) makes each of the three
    methods raise [KeyError]. *)
Theorem missing_durations_key :
  forall float_repr json_loads server items,
    dict_lookup "durations" items = None ->
    (forall sources destination,
        json_loads (server (many_to_one_request float_repr sources destination)) =
        Ok (JDict items) ->
        outcome server
          (get_travel_time_many_to_one float_repr json_loads sources destination) =
        Err KeyError)
    /\
    (forall source destinations,
        json_loads (server (one_to_many_request float_repr source destinations)) =
        Ok (JDict items) ->
        outcome server
          (get_travel_time_one_to_many float_repr json_loads source destinations) =
        Err KeyError)
    /\
    (forall source destination,
        json_loads (server (one_to_one_request float_repr source destination)) =
        Ok (JDict items) ->
        outcome server
          (get_travel_time_one_to_one float_repr json_loads source destination) =
        Err KeyError).
Proof.
  intros float_repr json_loads server items Hnone.
  split; [|split]; intros ? ? Hresp; unfold outcome.
  - rewrite many_to_one_run. cbn [snd]. rewrite Hresp. cbn [rbind].
    unfold duration_column, getitem_str. now rewrite Hnone.
  - rewrite one_to_many_run. cbn [snd]. rewrite Hresp. cbn [rbind].
    unfold duration_row, getitem_str. now rewrite Hnone.
  - rewrite one_to_one_run. cbn [snd]. rewrite Hresp. cbn [rbind].
    unfold duration_entry, getitem_str. now rewrite Hnone.
Qed.

Lemma missing_durations_key_witness :
  many_to_one
    (JDict [("code", JStr "NoSegment"); ("message", JStr "no route")])
    [A; B] D =
  Err KeyError.
Proof.
  apply (proj1 (missing_durations_key Sample.float_repr
                  (Sample.json_loads
                     (JDict [("code", JStr "NoSegment");
                             ("message", JStr "no route")]))
                  Sample.server
                  [("code", JStr "NoSegment"); ("message", JStr "no route")]
                  eq_refl)).
  reflexivity.
Defined.

(** X2.  When [json.loads] raises on the text of the response, each of
    the three methods has sent its one request and raises the same
    exception: nothing is caught. *)
Theorem decode_error_propagates :
  forall float_repr json_loads server e,
    (forall sources destination,
        json_loads (server (many_to_one_request float_repr sources destination)) =
        Err e ->
        run server
          (get_travel_time_many_to_one float_repr json_loads sources destination) =
        ([many_to_one_request float_repr sources destination], Err e))
    /\
    (forall source destinations,
        json_loads (server (one_to_many_request float_repr source destinations)) =
        Err e ->
        run server
          (get_travel_time_one_to_many float_repr json_loads source destinations) =
        ([one_to_many_request float_repr source destinations], Err e))
    /\
    (forall source destination,
        json_loads (server (one_to_one_request float_repr source destination)) =
        Err e ->
        run server
          (get_travel_time_one_to_one float_repr json_loads source destination) =
        ([one_to_one_request float_repr source destination], Err e)).
Proof.
  intros float_repr json_loads server e.
  split; [|split]; intros ? ? Hresp.
  - rewrite many_to_one_run, Hresp. reflexivity.
  - rewrite one_to_many_run, Hresp. reflexivity.
  - rewrite one_to_one_run, Hresp. reflexivity.
Qed.

Lemma decode_error_propagates_witness :
  run (fun _ => "<html>502 Bad Gateway</html>")
    (get_travel_time_one_to_one Sample.float_repr
       (fun _ => Err JSONDecodeError) stockholm uppsala) =
  ([one_to_one_request Sample.float_repr stockholm uppsala], Err JSONDecodeError).
Proof.
  apply (proj2 (proj2 (decode_error_propagates Sample.float_repr
                         (fun _ => Err JSONDecodeError)
                         (fun _ => "<html>502 Bad Gateway</html>")
                         JSONDecodeError))).
  reflexivity.
Defined.

(** X3.  With an empty list of sources (many-to-one) or of destinations
    (one-to-many) the call never returns a result, whatever the server
    answers; when the scanned durations are numbers it raises
    [IndexError]. *)
Theorem empty_list_never_returns :
  forall float_repr json_loads server fixed,
    (forall r,
        outcome server (get_travel_time_many_to_one float_repr json_loads [] fixed)
        <> Ok r)
    /\
    (forall r,
        outcome server (get_travel_time_one_to_many float_repr json_loads fixed [])
        <> Ok r)
    /\
    (forall ds,
        many_to_one_durations float_repr json_loads server [] fixed ds ->
        outcome server (get_travel_time_many_to_one float_repr json_loads [] fixed)
        = Err IndexError)
    /\
    (forall ds,
        one_to_many_durations float_repr json_loads server fixed [] ds ->
        outcome server (get_travel_time_one_to_many float_repr json_loads fixed [])
        = Err IndexError).
Proof.
  intros float_repr json_loads server fixed. split; [|split; [|split]].
  - intro r. unfold outcome. rewrite many_to_one_run. cbn [snd].
    destruct (json_loads _) as [resp|e]; [|discriminate]. cbn [rbind].
    destruct (duration_column resp) as [ds|e]; [|discriminate]. cbn [rbind].
    rewrite pick_nil. discriminate.
  - intro r. unfold outcome. rewrite one_to_many_run. cbn [snd].
    destruct (json_loads _) as [resp|e]; [|discriminate]. cbn [rbind].
    destruct (duration_row resp) as [ds|e]; [|discriminate]. cbn [rbind].
    rewrite pick_nil. discriminate.
  - intros ds Hds. rewrite (many_to_one_outcome _ _ _ _ _ _ Hds).
    apply pick_nil.
  - intros ds Hds. rewrite (one_to_many_outcome _ _ _ _ _ _ Hds).
    apply pick_nil.
Qed.

Lemma empty_list_never_returns_witness :
  many_to_one (column [PyInt 0; PyInt 100]) [] D = Err IndexError.
Proof.
  apply (proj1 (proj2 (proj2
           (empty_list_never_returns Sample.float_repr
              (Sample.json_loads (column [PyInt 0; PyInt 100]))
              Sample.server D))) [PyInt 0; PyInt 100]).
  apply mocked_many_to_one, column_durations.
Defined.

(** X4.  Whatever the server answers, a coordinate returned by a scanning
    call is an element of the list it was given, and the fixed coordinate
    comes back as it was; one-to-one returns exactly its two arguments. *)
Theorem returned_coordinates :
  forall float_repr json_loads server,
    (forall sources destination t c o,
        outcome server
          (get_travel_time_many_to_one float_repr json_loads sources destination) =
        Ok (t, c, o) ->
        In c sources /\ o = destination)
    /\
    (forall source destinations t c o,
        outcome server
          (get_travel_time_one_to_many float_repr json_loads source destinations) =
        Ok (t, c, o) ->
        In c destinations /\ o = source)
    /\
    (forall source destination t s d,
        outcome server
          (get_travel_time_one_to_one float_repr json_loads source destination) =
        Ok (t, s, d) ->
        s = source /\ d = destination).
Proof.
  intros float_repr json_loads server. split; [|split].
  - intros sources destination t c o. unfold outcome.
    rewrite many_to_one_run. cbn [snd].
    destruct (json_loads _) as [resp|e]; [|discriminate]. cbn [rbind].
    destruct (duration_column resp) as [ds|e]; [|discriminate]. cbn [rbind].
    apply pick_coordinates.
  - intros source destinations t c o. unfold outcome.
    rewrite one_to_many_run. cbn [snd].
    destruct (json_loads _) as [resp|e]; [|discriminate]. cbn [rbind].
    destruct (duration_row resp) as [ds|e]; [|discriminate]. cbn [rbind].
    apply pick_coordinates.
  - intros source destination t s d. unfold outcome.
    rewrite one_to_one_run. cbn [snd].
    destruct (json_loads _) as [resp|e]; [|discriminate]. cbn [rbind].
    destruct (duration_entry resp) as [x|e]; [|discriminate]. cbn [rbind].
    destruct (py_truediv x (PyInt 3600)); [|discriminate]. cbn [rbind].
    intros [= _ <- <-]. split; reflexivity.
Qed.

Lemma returned_coordinates_witness :
  many_to_one (column [PyInt 0; PyInt 100; PyInt 50; PyInt 200]) [A; B; C] D =
  Ok (hours_50, B, D) /\
  In B [A; B; C] /\ D = D.
Proof.
  split; [vm_compute; reflexivity|].
  apply (proj1 (returned_coordinates Sample.float_repr
                  (Sample.json_loads
                     (column [PyInt 0; PyInt 100; PyInt 50; PyInt 200]))
                  Sample.server)
           [A; B; C] D hours_50 B D).
  vm_compute. reflexivity.
Defined.

(** X5.  Each method sends exactly one request, and the request does not
    depend on what the server answers or on how the answer parses: there
    is no second request and no retry, also when the call fails. *)
Theorem one_request_per_call :
  forall float_repr json_loads json_loads' server server',
    (forall sources destination,
        requests_sent server
          (get_travel_time_many_to_one float_repr json_loads sources destination) =
        requests_sent server'
          (get_travel_time_many_to_one float_repr json_loads' sources destination)
        /\
        List.length
          (requests_sent server
             (get_travel_time_many_to_one float_repr json_loads sources destination))
        = 1%nat)
    /\
    (forall source destinations,
        requests_sent server
          (get_travel_time_one_to_many float_repr json_loads source destinations) =
        requests_sent server'
          (get_travel_time_one_to_many float_repr json_loads' source destinations)
        /\
        List.length
          (requests_sent server
             (get_travel_time_one_to_many float_repr json_loads source destinations))
        = 1%nat)
    /\
    (forall source destination,
        requests_sent server
          (get_travel_time_one_to_one float_repr json_loads source destination) =
        requests_sent server'
          (get_travel_time_one_to_one float_repr json_loads' source destination)
        /\
        List.length
          (requests_sent server
             (get_travel_time_one_to_one float_repr json_loads source destination))
        = 1%nat).
Proof.
  intros float_repr json_loads json_loads' server server'.
  split; [|split]; intros; unfold requests_sent.
  - rewrite !many_to_one_run. split; reflexivity.
  - rewrite !one_to_many_run. split; reflexivity.
  - rewrite !one_to_one_run. split; reflexivity.
Qed.

(** X6.  Once the scanned durations have been read as numbers, a scanning
    call can only fail with [IndexError], in the final lookup: the
    comparison and the division by 3600 never raise. *)
Theorem scanning_fails_only_by_index :
  forall float_repr json_loads server,
    (forall sources destination ds e,
        many_to_one_durations float_repr json_loads server sources destination ds ->
        outcome server
          (get_travel_time_many_to_one float_repr json_loads sources destination) =
        Err e ->
        e = IndexError)
    /\
    (forall source destinations ds e,
        one_to_many_durations float_repr json_loads server source destinations ds ->
        outcome server
          (get_travel_time_one_to_many float_repr json_loads source destinations) =
        Err e ->
        e = IndexError).
Proof.
  intros float_repr json_loads server. split.
  - intros sources destination ds e Hds.
    rewrite (many_to_one_outcome _ _ _ _ _ _ Hds). apply pick_error.
  - intros source destinations ds e Hds.
    rewrite (one_to_many_outcome _ _ _ _ _ _ Hds). apply pick_error.
Qed.

Lemma scanning_fails_only_by_index_witness :
  one_to_many (row [PyInt 0; PyInt 70; PyInt 60; PyInt 50]) D [A; B] =
  Err IndexError /\
  IndexError = IndexError.
Proof.
  split; [vm_compute; reflexivity|].
  apply (proj2 (scanning_fails_only_by_index Sample.float_repr
                  (Sample.json_loads (row [PyInt 0; PyInt 70; PyInt 60; PyInt 50]))
                  Sample.server)
           D [A; B] [PyInt 0; PyInt 70; PyInt 60; PyInt 50] IndexError).
  - apply mocked_one_to_many, row_durations.
  - vm_compute. reflexivity.
Defined.

(** X7.  When the answer has more scanned durations than there are
    locations and every selectable duration sits beyond the end of the
    coordinate list, the scanning calls raise [IndexError]. *)
Theorem overlong_answer_raises :
  forall float_repr json_loads server,
    (forall sources destination ds,
        many_to_one_durations float_repr json_loads server sources destination ds ->
        (exists d, In d ds /\ candidate d = true) ->
        (forall j d, nth_error ds j = Some d -> candidate d = true ->
                     (List.length sources < j)%nat) ->
        outcome server
          (get_travel_time_many_to_one float_repr json_loads sources destination) =
        Err IndexError)
    /\
    (forall source destinations ds,
        one_to_many_durations float_repr json_loads server source destinations ds ->
        (exists d, In d ds /\ candidate d = true) ->
        (forall j d, nth_error ds j = Some d -> candidate d = true ->
                     (List.length destinations < j)%nat) ->
        outcome server
          (get_travel_time_one_to_many float_repr json_loads source destinations) =
        Err IndexError).
Proof.
  assert (Hpick : forall coords fixed ds,
             (exists d, In d ds /\ candidate d = true) ->
             (forall j d, nth_error ds j = Some d -> candidate d = true ->
                          (List.length coords < j)%nat) ->
             pick coords fixed ds = Err IndexError).
  { intros coords fixed ds (d0 & Hin & Hc0) Hfar. unfold pick.
    destruct (scan_selected ds) as [[_ Hnone]|(i & d & Hi & Hc & -> & _)].
    - rewrite (Hnone _ Hin) in Hc0. discriminate.
    - destruct (truediv_candidate d Hc) as [t ->]. cbn [rbind].
      pose proof (Hfar i d Hi Hc) as Hlt.
      replace (Z.of_nat i - 1) with (Z.of_nat (i - 1)) by lia.
      rewrite list_getitem_beyond by lia. reflexivity. }
  intros float_repr json_loads server. split.
  - intros sources destination ds Hds Hex Hfar.
    rewrite (many_to_one_outcome _ _ _ _ _ _ Hds). now apply Hpick.
  - intros source destinations ds Hds Hex Hfar.
    rewrite (one_to_many_outcome _ _ _ _ _ _ Hds). now apply Hpick.
Qed.

Lemma overlong_answer_raises_witness :
  many_to_one (column [PyInt 0; PyInt 0; PyInt 0; PyInt 50]) [A; B] D =
  Err IndexError.
Proof.
  apply (proj1 (overlong_answer_raises Sample.float_repr
                  (Sample.json_loads (column [PyInt 0; PyInt 0; PyInt 0; PyInt 50]))
                  Sample.server)
           [A; B] D [PyInt 0; PyInt 0; PyInt 0; PyInt 50]).
  - apply mocked_many_to_one, column_durations.
  - exists (PyInt 50). split; [simpl; auto | reflexivity].
  - intros j d Hj Hc.
    destruct j as [|[|[|[|j]]]]; simpl in Hj;
      try (injection Hj as <-; discriminate Hc).
    + simpl. lia.
    + destruct j; discriminate Hj.
Defined.

(** X8.  The travel time a scanning call returns is never negative and
    never a NaN, whatever the server answers. *)
Theorem scanning_travel_time_sign :
  forall float_repr json_loads server,
    (forall sources destination t c o,
        outcome server
          (get_travel_time_many_to_one float_repr json_loads sources destination) =
        Ok (t, c, o) ->
        sign_clear t = true)
    /\
    (forall source destinations t c o,
        outcome server
          (get_travel_time_one_to_many float_repr json_loads source destinations) =
        Ok (t, c, o) ->
        sign_clear t = true).
Proof.
  assert (Hpick : forall coords fixed ds t c o,
             pick coords fixed ds = Ok (t, c, o) -> sign_clear t = true).
  { intros coords fixed ds t c o H.
    destruct (pick_returned _ _ _ _ _ _ H)
      as [(_ & -> & _)|(i & d & _ & _ & Hpos & Ht & _)].
    - reflexivity.
    - exact (truediv_positive_sign d t Hpos Ht). }
  intros float_repr json_loads server. split.
  - intros sources destination t c o. unfold outcome.
    rewrite many_to_one_run. cbn [snd].
    destruct (json_loads _) as [resp|e]; [|discriminate]. cbn [rbind].
    destruct (duration_column resp) as [ds|e]; [|discriminate]. cbn [rbind].
    apply Hpick.
  - intros source destinations t c o. unfold outcome.
    rewrite one_to_many_run. cbn [snd].
    destruct (json_loads _) as [resp|e]; [|discriminate]. cbn [rbind].
    destruct (duration_row resp) as [ds|e]; [|discriminate]. cbn [rbind].
    apply Hpick.
Qed.

Lemma scanning_travel_time_sign_witness :
  one_to_many (row [PyInt (-20); PyInt 5; PyInt (-3)]) A [B; C] =
  Ok (hours_5, B, A) /\
  sign_clear hours_5 = true.
Proof.
  split; [vm_compute; reflexivity|].
  apply (proj2 (scanning_travel_time_sign Sample.float_repr
                  (Sample.json_loads (row [PyInt (-20); PyInt 5; PyInt (-3)]))
                  Sample.server)
           A [B; C] hours_5 B A).
  vm_compute. reflexivity.
Defined.

(** X9.  A duration that a scanning call turns into its travel time is a
    finite number strictly between 0 and [sys.maxsize]: a NaN or an
    infinite duration in the answer is never selected. *)
Theorem selected_duration_in_range :
  forall float_repr json_loads server,
    (forall sources destination ds t c o,
        many_to_one_durations float_repr json_loads server sources destination ds ->
        outcome server
          (get_travel_time_many_to_one float_repr json_loads sources destination) =
        Ok (t, c, o) ->
        t = sentinel_hours \/
        exists i d q,
          nth_error ds i = Some d /\ value d = XFin q /\
          (0 < q)%Q /\ (q < inject_Z sys_maxsize)%Q /\
          py_truediv d (PyInt 3600) = Ok t)
    /\
    (forall source destinations ds t c o,
        one_to_many_durations float_repr json_loads server source destinations ds ->
        outcome server
          (get_travel_time_one_to_many float_repr json_loads source destinations) =
        Ok (t, c, o) ->
        t = sentinel_hours \/
        exists i d q,
          nth_error ds i = Some d /\ value d = XFin q /\
          (0 < q)%Q /\ (q < inject_Z sys_maxsize)%Q /\
          py_truediv d (PyInt 3600) = Ok t).
Proof.
  assert (Hpick : forall coords fixed ds t c o,
             pick coords fixed ds = Ok (t, c, o) ->
             t = sentinel_hours \/
             exists i d q,
               nth_error ds i = Some d /\ value d = XFin q /\
               (0 < q)%Q /\ (q < inject_Z sys_maxsize)%Q /\
               py_truediv d (PyInt 3600) = Ok t).
  { intros coords fixed ds t c o H. unfold pick in H.
    destruct (scan_selected ds) as [[E _]|(i & d & Hi & Hc & E & _)];
      rewrite E in H.
    - left. unfold initial_state in H. rewrite truediv_sentinel in H.
      cbn [rbind] in H. destruct (list_getitem coords (-1)); [|discriminate].
      cbn [rbind] in H. now injection H as <- _ _.
    - right. destruct (py_truediv d (PyInt 3600)) as [t'|e] eqn:Ht; [|discriminate].
      cbn [rbind] in H.
      destruct (list_getitem coords (Z.of_nat i - 1)); [|discriminate].
      cbn [rbind] in H. injection H as <- _ _.
      destruct (candidate_value d Hc) as (q & Hv & H0 & H1).
      exists i, d, q. repeat split; assumption. }
  intros float_repr json_loads server. split.
  - intros sources destination ds t c o Hds.
    rewrite (many_to_one_outcome _ _ _ _ _ _ Hds). apply Hpick.
  - intros source destinations ds t c o Hds.
    rewrite (one_to_many_outcome _ _ _ _ _ _ Hds). apply Hpick.
Qed.

Lemma selected_duration_in_range_witness :
  one_to_many
    (row [PyFloat S754_nan; PyFloat (S754_infinity false); PyInt 50]) D [A; B] =
  Ok (hours_50, B, D) /\
  (hours_50 = sentinel_hours \/
   exists i d q,
     nth_error [PyFloat S754_nan; PyFloat (S754_infinity false); PyInt 50] i =
     Some d /\
     value d = XFin q /\ (0 < q)%Q /\ (q < inject_Z sys_maxsize)%Q /\
     py_truediv d (PyInt 3600) = Ok hours_50).
Proof.
  split; [vm_compute; reflexivity|].
  apply (proj2 (selected_duration_in_range Sample.float_repr
                  (Sample.json_loads
                     (row [PyFloat S754_nan; PyFloat (S754_infinity false);
                           PyInt 50]))
                  Sample.server)
           D [A; B] [PyFloat S754_nan; PyFloat (S754_infinity false); PyInt 50]
           hours_50 B D).
  - apply mocked_one_to_many, row_durations.
  - vm_compute. reflexivity.
Defined.

(** X10.  The two scanning methods are the same computation: a
    many-to-one call and a one-to-many call over the same coordinate list
    and the same fixed coordinate, answered with the same durations (as
    column 0, respectively as row 0), have the same outcome, result or
    exception. *)
Theorem scanning_calls_agree :
  forall float_repr json_loads json_loads' server server' coords fixed ds,
    many_to_one_durations float_repr json_loads server coords fixed ds ->
    one_to_many_durations float_repr json_loads' server' fixed coords ds ->
    outcome server
      (get_travel_time_many_to_one float_repr json_loads coords fixed) =
    outcome server'
      (get_travel_time_one_to_many float_repr json_loads' fixed coords).
Proof.
  intros float_repr json_loads json_loads' server server' coords fixed ds Hc Hr.
  rewrite (many_to_one_outcome _ _ _ _ _ _ Hc).
  rewrite (one_to_many_outcome _ _ _ _ _ _ Hr). reflexivity.
Qed.

Lemma scanning_calls_agree_witness :
  many_to_one (column [PyInt 0; PyInt 100; PyInt 50; PyInt 200]) [A; B; C] D =
  one_to_many (row [PyInt 0; PyInt 100; PyInt 50; PyInt 200]) D [A; B; C].
Proof.
  apply (scanning_calls_agree Sample.float_repr
           (Sample.json_loads (column [PyInt 0; PyInt 100; PyInt 50; PyInt 200]))
           (Sample.json_loads (row [PyInt 0; PyInt 100; PyInt 50; PyInt 200]))
           Sample.server Sample.server [A; B; C] D
           [PyInt 0; PyInt 100; PyInt 50; PyInt 200]).
  - apply mocked_many_to_one, column_durations.
  - apply mocked_one_to_many, row_durations.
Defined.

(** X11.  For one destination, one-to-many answered with the row
    [[d0, d]] ([d0] for the source itself, not strictly positive) and
    one-to-one answered with [[[d]]] return the same travel time when
    [0 < d < sys.maxsize]; the two coordinates come back in opposite
    orders: destination first from one-to-many, source first from
    one-to-one. *)
Theorem single_destination_agrees :
  forall float_repr json_loads json_loads' server server' source destination d0 d,
    one_to_many_durations float_repr json_loads server source [destination] [d0; d] ->
    one_to_one_duration float_repr json_loads' server' source destination d ->
    py_lt (PyInt 0) d0 = false ->
    candidate d = true ->
    exists t,
      outcome server
        (get_travel_time_one_to_many float_repr json_loads source [destination]) =
      Ok (t, destination, source) /\
      outcome server'
        (get_travel_time_one_to_one float_repr json_loads' source destination) =
      Ok (t, source, destination).
Proof.
  intros float_repr json_loads json_loads' server server' source destination d0 d
         Hmany Hone H0 Hc.
  destruct (truediv_candidate d Hc) as [t Ht]. exists t. split.
  - rewrite (one_to_many_outcome _ _ _ _ _ _ Hmany).
    unfold candidate in Hc. apply andb_prop in Hc. destruct Hc as [Hc1 Hc2].
    unfold pick, initial_state, scan, scan_step.
    rewrite H0. cbn [andb]. rewrite Hc1, Hc2. cbn [andb].
    rewrite Ht. reflexivity.
  - rewrite (one_to_one_outcome _ _ _ _ _ _ Hone), Ht. reflexivity.
Qed.

Lemma single_destination_agrees_witness :
  exists t,
    one_to_many (row [PyInt 0; PyInt 1800]) stockholm [uppsala] =
    Ok (t, uppsala, stockholm) /\
    one_to_one (row [PyInt 1800]) stockholm uppsala =
    Ok (t, stockholm, uppsala).
Proof.
  apply (single_destination_agrees Sample.float_repr
           (Sample.json_loads (row [PyInt 0; PyInt 1800]))
           (Sample.json_loads (row [PyInt 1800]))
           Sample.server Sample.server stockholm uppsala (PyInt 0) (PyInt 1800)).
  - apply mocked_one_to_many, row_durations.
  - apply mocked_one_to_one.
  - reflexivity.
  - reflexivity.
Defined.

Section NullEntries.

Lemma list_getitem_head {A : Type} (x : A) (l : list A) :
  list_getitem (x :: l) 0 = Ok x.
Proof. exact (list_getitem_nonneg (x :: l) 0 x eq_refl). Qed.

Lemma read_durations_null (duration_of : json -> result json)
    (items vs : list json) :
  Forall2 (fun obj v => duration_of obj = Ok v) items vs ->
  Forall number_or_null vs ->
  In JNull vs ->
  read_durations duration_of items = Err TypeError.
Proof.
  induction 1 as [|obj v items vs Hobj _ IH]; intros Hall Hin; [destruct Hin|].
  cbn [read_durations]. rewrite Hobj. cbn [rbind].
  inversion Hall as [|? ? Hv Hvs]; subst.
  destruct Hv as [->|[n ->]]; [reflexivity|].
  cbn [as_number rbind]. destruct Hin as [Hin|Hin]; [discriminate|].
  now rewrite (IH Hvs Hin).
Qed.

Lemma first_entries_read (rows vs : list json) :
  first_entries rows vs ->
  Forall2 (fun obj v => first_of_row obj = Ok v) rows vs.
Proof.
  induction 1 as [|row v rows vs [rest ->] _ IH]; constructor; [|exact IH].
  apply list_getitem_head.
Qed.

Lemma itself_read (vs : list json) :
  Forall2 (fun obj v => itself obj = Ok v) vs vs.
Proof. induction vs; constructor; [reflexivity | assumption]. Qed.

End NullEntries.

(** X12.  A [null] among the scanned entries of the answer (a pair with
    no route), the other entries being numbers, makes the scanning calls
    raise [TypeError], however many valid durations the answer holds;
    one-to-one raises [TypeError] when its single entry is [null]. *)
Theorem null_entry_raises :
  forall float_repr json_loads server,
    (forall sources destination response_json rows vs,
        json_loads (server (many_to_one_request float_repr sources destination)) =
        Ok response_json ->
        answer_with response_json (JList rows) ->
        first_entries rows vs ->
        Forall number_or_null vs ->
        In JNull vs ->
        outcome server
          (get_travel_time_many_to_one float_repr json_loads sources destination) =
        Err TypeError)
    /\
    (forall source destinations response_json vs rows,
        json_loads (server (one_to_many_request float_repr source destinations)) =
        Ok response_json ->
        answer_with response_json (JList (JList vs :: rows)) ->
        Forall number_or_null vs ->
        In JNull vs ->
        outcome server
          (get_travel_time_one_to_many float_repr json_loads source destinations) =
        Err TypeError)
    /\
    (forall source destination response_json row rows,
        json_loads (server (one_to_one_request float_repr source destination)) =
        Ok response_json ->
        answer_with response_json (JList (JList (JNull :: row) :: rows)) ->
        outcome server
          (get_travel_time_one_to_one float_repr json_loads source destination) =
        Err TypeError).
Proof.
  intros float_repr json_loads server. split; [|split].
  - intros sources destination resp rows vs Hresp (items & -> & Hdur) Hrows Hall Hin.
    unfold outcome. rewrite many_to_one_run. cbn [snd]. rewrite Hresp. cbn [rbind].
    unfold duration_column, getitem_str. rewrite Hdur. cbn [rbind py_iter].
    now rewrite (read_durations_null _ _ _ (first_entries_read _ _ Hrows) Hall Hin).
  - intros source destinations resp vs rows Hresp (items & -> & Hdur) Hall Hin.
    unfold outcome. rewrite one_to_many_run. cbn [snd]. rewrite Hresp. cbn [rbind].
    unfold duration_row, getitem_str. rewrite Hdur. cbn [rbind getitem_int].
    rewrite list_getitem_head. cbn [rbind py_iter].
    now rewrite (read_durations_null _ _ _ (itself_read vs) Hall Hin).
  - intros source destination resp row rows Hresp (items & -> & Hdur).
    unfold outcome. rewrite one_to_one_run. cbn [snd]. rewrite Hresp. cbn [rbind].
    unfold duration_entry, getitem_str. rewrite Hdur. cbn [rbind getitem_int].
    rewrite list_getitem_head. cbn [rbind getitem_int].
    rewrite list_getitem_head. reflexivity.
Qed.

Lemma null_entry_raises_witness :
  outcome Sample.server
    (get_travel_time_many_to_one Sample.float_repr
       (Sample.json_loads
          (JDict [("code", JStr "Ok");
                  ("durations",
                   JList [JList [JNum (PyInt 0)]; JList [JNum (PyInt 100)];
                          JList [JNull]; JList [JNum (PyInt 50)]])]))
       [A; B; C] D) =
  Err TypeError.
Proof.
  apply (proj1 (null_entry_raises Sample.float_repr
                  (Sample.json_loads
                     (JDict [("code", JStr "Ok");
                             ("durations",
                              JList [JList [JNum (PyInt 0)];
                                     JList [JNum (PyInt 100)];
                                     JList [JNull]; JList [JNum (PyInt 50)]])]))
                  Sample.server)
           [A; B; C] D
           (JDict [("code", JStr "Ok");
                   ("durations",
                    JList [JList [JNum (PyInt 0)]; JList [JNum (PyInt 100)];
                           JList [JNull]; JList [JNum (PyInt 50)]])])
           [JList [JNum (PyInt 0)]; JList [JNum (PyInt 100)];
            JList [JNull]; JList [JNum (PyInt 50)]]
           [JNum (PyInt 0); JNum (PyInt 100); JNull; JNum (PyInt 50)]).
  - reflexivity.
  - eexists. split; reflexivity.
  - repeat (apply Forall2_cons; [exists []; reflexivity|]). apply Forall2_nil.
  - repeat (apply Forall_cons;
            [first [left; reflexivity | right; eexists; reflexivity]|]).
    apply Forall_nil.
  - simpl. auto.
Defined.

(** X13.  With an empty [durations] matrix the three methods differ:
    many-to-one scans nothing and returns the sentinel with the last
    source, while one-to-many and one-to-one raise [IndexError] when they
    read row 0. *)
Theorem empty_matrix :
  forall float_repr json_loads server,
    (forall init last destination response_json,
        json_loads
          (server (many_to_one_request float_repr (init ++ [last])%list destination)) =
        Ok response_json ->
        answer_with response_json (JList []) ->
        outcome server
          (get_travel_time_many_to_one float_repr json_loads
             (init ++ [last])%list destination) =
        Ok (sentinel_hours, last, destination))
    /\
    (forall source destinations response_json,
        json_loads (server (one_to_many_request float_repr source destinations)) =
        Ok response_json ->
        answer_with response_json (JList []) ->
        outcome server
          (get_travel_time_one_to_many float_repr json_loads source destinations) =
        Err IndexError)
    /\
    (forall source destination response_json,
        json_loads (server (one_to_one_request float_repr source destination)) =
        Ok response_json ->
        answer_with response_json (JList []) ->
        outcome server
          (get_travel_time_one_to_one float_repr json_loads source destination) =
        Err IndexError).
Proof.
  intros float_repr json_loads server. split; [|split].
  - intros init last destination resp Hresp (items & -> & Hdur).
    unfold outcome. rewrite many_to_one_run. cbn [snd]. rewrite Hresp. cbn [rbind].
    unfold duration_column, getitem_str. rewrite Hdur.
    cbn [rbind py_iter read_durations].
    apply pick_nothing with (init := init); [intros d []|reflexivity].
  - intros source destinations resp Hresp (items & -> & Hdur).
    unfold outcome. rewrite one_to_many_run. cbn [snd]. rewrite Hresp. cbn [rbind].
    unfold duration_row, getitem_str. rewrite Hdur. cbn [rbind getitem_int].
    now rewrite list_getitem_nil.
  - intros source destination resp Hresp (items & -> & Hdur).
    unfold outcome. rewrite one_to_one_run. cbn [snd]. rewrite Hresp. cbn [rbind].
    unfold duration_entry, getitem_str. rewrite Hdur. cbn [rbind getitem_int].
    now rewrite list_getitem_nil.
Qed.

Lemma empty_matrix_witness :
  one_to_many (response []) D [A; B] = Err IndexError.
Proof.
  apply (proj1 (proj2 (empty_matrix Sample.float_repr
                         (Sample.json_loads (response [])) Sample.server))
           D [A; B] (response [])).
  - reflexivity.
  - eexists. split; reflexivity.
Defined.

(** X14.  The duration the selection loop ends with does not depend on
    the order of the scanned durations: for two answers whose durations
    are permutations of each other, the two loops end with numerically
    equal durations (neither is below the other); only the saved index
    may differ. *)
Theorem reordering_keeps_minimum :
  forall duration_of items items' ds ds',
    read_durations duration_of items = Ok ds ->
    read_durations duration_of items' = Ok ds' ->
    Permutation ds ds' ->
    exists d i d' i',
      shortest_loop duration_of items 0 (PyInt sys_maxsize, -1) = Ok (d, i) /\
      shortest_loop duration_of items' 0 (PyInt sys_maxsize, -1) = Ok (d', i') /\
      py_lt d d' = false /\ py_lt d' d = false.
Proof.
  intros duration_of items items' ds ds' Hds Hds' Hperm.
  rewrite !shortest_loop_scan, Hds, Hds'. cbn [rbind].
  change (PyInt sys_maxsize, -1) with initial_state.
  destruct (scan_selected ds) as [[E Hnone]|(i & d & Hi & Hc & E & Hmin & _)];
    destruct (scan_selected ds')
      as [[E' Hnone']|(i' & d' & Hi' & Hc' & E' & Hmin' & _)];
    rewrite E, E'.
  - exists (PyInt sys_maxsize), (-1), (PyInt sys_maxsize), (-1).
    repeat split; apply py_lt_irrefl.
  - exfalso. apply nth_error_In in Hi'.
    apply (Permutation_in _ (Permutation_sym Hperm)) in Hi'.
    rewrite (Hnone _ Hi') in Hc'. discriminate.
  - exfalso. apply nth_error_In in Hi.
    apply (Permutation_in _ Hperm) in Hi.
    rewrite (Hnone' _ Hi) in Hc. discriminate.
  - exists d, (Z.of_nat i - 1), d', (Z.of_nat i' - 1).
    unfold candidate in Hc, Hc'.
    apply andb_prop in Hc. apply andb_prop in Hc'.
    split; [reflexivity|]. split; [reflexivity|]. split.
    + pose proof (nth_error_In _ _ Hi) as Hin.
      apply (Permutation_in _ Hperm) in Hin.
      apply In_nth_error in Hin. destruct Hin as [j Hj].
      exact (Hmin' j d Hj (proj1 Hc)).
    + pose proof (nth_error_In _ _ Hi') as Hin.
      apply (Permutation_in _ (Permutation_sym Hperm)) in Hin.
      apply In_nth_error in Hin. destruct Hin as [j Hj].
      exact (Hmin j d' Hj (proj1 Hc')).
Qed.

Lemma reordering_keeps_minimum_witness :
  exists d i d' i',
    shortest_loop itself [JNum (PyInt 70); JNum (PyInt 50)] 0
      (PyInt sys_maxsize, -1) = Ok (d, i) /\
    shortest_loop itself [JNum (PyInt 50); JNum (PyInt 70)] 0
      (PyInt sys_maxsize, -1) = Ok (d', i') /\
    py_lt d d' = false /\ py_lt d' d = false.
Proof.
  apply (reordering_keeps_minimum itself
           [JNum (PyInt 70); JNum (PyInt 50)]
           [JNum (PyInt 50); JNum (PyInt 70)]
           [PyInt 70; PyInt 50] [PyInt 50; PyInt 70]).
  - reflexivity.
  - reflexivity.
  - apply perm_swap.
Defined.
